(** * fit-track-goals-app: registration, login, the authorization gate
      and the goal operations, embedded in Rocq.

    The development follows the repository:

    - [JsString], [Regex], [Js]   strings, regular expressions, values,
                                  thrown values and effects of the runtime
    - [Helpers]                   src/utils/helpers.js
    - [Bcrypt], [Jwt]             contracts of bcrypt and jsonwebtoken
    - [User], [Goal]              api/models/User.js, api/models/Goal.js
    - Section [Program]           the store operations of the models,
                                  api/services/authService.js,
                                  api/services/goalService.js,
                                  api/middlewares/authMiddleware.js,
                                  api/controllers/goalController.js,
                                  api/controllers/authController.js,
                                  and their properties

    A string is a [string], one [ascii] for one UTF-16 code unit, so the
    model covers the text whose code units are below 256.  Numbers and
    instants are in [Z]: fractions, [NaN] and the infinities are not
    among the values.  An object id is the string of its 24 hexadecimal
    digits, and ids are compared as strings.  The store answers every
    query: a lost connection is not modelled.  The clock stands still
    while one operation runs. *)

From Stdlib Require Import String Ascii List ZArith Bool Lia Arith.
From Stdlib Require Strings.Byte.
From Stdlib Require Import DecimalString.
Import ListNotations.
Local Open Scope string_scope.

(* ===================================================================== *)
(** * String primitives of the runtime *)
(* ===================================================================== *)

Module JsString.

(** [\s] and [String.prototype.trim] white space among the code units
    below 256: TAB, LF, VT, FF, CR, SPACE and NO-BREAK SPACE. *)
Definition isSpace (c : ascii) : bool :=
  let n := nat_of_ascii c in
  ((9 <=? n)%nat && (n <=? 13)%nat) || (n =? 32)%nat || (n =? 160)%nat.

(** The code units below 256 that [toLowerCase] changes: [A-Z], and
    U+00C0 to U+00DE but for the multiplication sign U+00D7; each goes 32
    up. *)
Definition isUpper (c : ascii) : bool :=
  let n := nat_of_ascii c in
  ((65 <=? n)%nat && (n <=? 90)%nat)
  || ((192 <=? n)%nat && (n <=? 222)%nat && negb (n =? 215)%nat).

Definition lowerChar (c : ascii) : ascii :=
  if isUpper c then ascii_of_nat (nat_of_ascii c + 32) else c.

Definition isEmpty (s : string) : bool :=
  match s with EmptyString => true | String _ _ => false end.

Fixpoint stringMap (f : ascii -> ascii) (s : string) : string :=
  match s with
  | EmptyString => EmptyString
  | String c r => String (f c) (stringMap f r)
  end.

Fixpoint stringAll (p : ascii -> bool) (s : string) : bool :=
  match s with
  | EmptyString => true
  | String c r => p c && stringAll p r
  end.

(** [s.toLowerCase()] *)
Definition toLowerCase (s : string) : string := stringMap lowerChar s.

Fixpoint trimStart (s : string) : string :=
  match s with
  | EmptyString => EmptyString
  | String c r => if isSpace c then trimStart r else s
  end.

Fixpoint trimEnd (s : string) : string :=
  match s with
  | EmptyString => EmptyString
  | String c r =>
      let r' := trimEnd r in
      if isSpace c && isEmpty r' then EmptyString else String c r'
  end.

(** [s.trim()] *)
Definition trim (s : string) : string := trimEnd (trimStart s).

(** [s.split(sep)] for a one-character separator. *)
Fixpoint split (sep : ascii) (s : string) : list string :=
  match s with
  | EmptyString => [EmptyString]
  | String c r =>
      if Ascii.eqb c sep then EmptyString :: split sep r
      else match split sep r with
           | h :: t => String c h :: t
           | [] => [String c EmptyString]
           end
  end.

(** [s.replace(/<[^>]*>?/gm, '')]: every match starts at a ["<"], runs
    greedily over the characters that are not [">"] and takes the
    closing [">"] when there is one.  [inTag] records that the scan is
    inside a match. *)
Fixpoint stripTagsFrom (inTag : bool) (s : string) : string :=
  match s with
  | EmptyString => EmptyString
  | String c r =>
      if inTag then
        if Ascii.eqb c ">" then stripTagsFrom false r
        else stripTagsFrom true r
      else if Ascii.eqb c "<" then stripTagsFrom true r
      else String c (stripTagsFrom false r)
  end.

Definition stripTags (s : string) : string := stripTagsFrom false s.

End JsString.

(** Regular expressions over character classes, matched with Brzozowski
  derivatives.  The patterns of the source are anchored ([^...$]) and
  carry no flags, so a test is a whole-string match. *)
Module Regex.

Inductive re : Type :=
| Void : re
| Eps : re
| Class : (ascii -> bool) -> re
| Seq : re -> re -> re
| Alt : re -> re -> re
| Star : re -> re.

Definition Plus (r : re) : re := Seq r (Star r).
Definition Lit (c : ascii) : re := Class (Ascii.eqb c).

Fixpoint nullable (r : re) : bool :=
  match r with
  | Void => false
  | Eps => true
  | Class _ => false
  | Seq a b => nullable a && nullable b
  | Alt a b => nullable a || nullable b
  | Star _ => true
  end.

Fixpoint deriv (c : ascii) (r : re) : re :=
  match r with
  | Void => Void
  | Eps => Void
  | Class p => if p c then Eps else Void
  | Seq a b =>
      if nullable a then Alt (Seq (deriv c a) b) (deriv c b)
      else Seq (deriv c a) b
  | Alt a b => Alt (deriv c a) (deriv c b)
  | Star a => Seq (deriv c a) (Star a)
  end.

Fixpoint test (r : re) (s : string) : bool :=
  match s with
  | EmptyString => nullable r
  | String c s' => test (deriv c r) s'
  end.

End Regex.

(* ===================================================================== *)
(** * Values, thrown values and effects *)
(* ===================================================================== *)

Module Js.

(** The JavaScript values the entry points inspect. *)
Inductive JsVal : Type :=
| JUndefined : JsVal
| JNull : JsVal
| JBool : bool -> JsVal
| JNum : Z -> JsVal
| JStr : string -> JsVal.

(** [!!v] *)
Definition truthy (v : JsVal) : bool :=
  match v with
  | JUndefined | JNull => false
  | JBool b => b
  | JNum n => negb (n =? 0)%Z
  | JStr s => negb (JsString.isEmpty s)
  end.

(** [typeof v === 'number'] *)
Definition isNumber (v : JsVal) : bool :=
  match v with JNum _ => true | _ => false end.

(** An object literal, in the order its properties are written. *)
Definition JsObject : Type := list (string * JsVal).

Definition keys (o : JsObject) : list string := map fst o.

(** [o[k]] *)
Fixpoint field (k : string) (o : JsObject) : option JsVal :=
  match o with
  | [] => None
  | (k', v) :: r => if String.eqb k k' then Some v else field k r
  end.

(** A thrown value.  The services throw plain objects
    [{ message, code, statusText }]; the libraries throw [Error] objects
    with a [name] and a [message], and the store driver adds a numeric
    [code].  A property that is not there is [None]. *)
Record JsError : Type := mkError {
  e_name : option string;
  e_message : option string;
  e_code : option Z;
  e_statusText : option string
}.

(** [throw { message, code, statusText }] *)
Definition apiError (msg : string) (code : Z) (statusText : string) : JsError :=
  mkError None (Some msg) (Some code) (Some statusText).

(** A thrown value has the uniform shape when the three properties are
    there. *)
Definition isStructured (e : JsError) : bool :=
  match e_message e, e_code e, e_statusText e with
  | Some _, Some _, Some _ => true
  | _, _, _ => false
  end.

Definition truthyStr (o : option string) : bool :=
  match o with Some s => negb (JsString.isEmpty s) | None => false end.

Definition truthyNum (o : option Z) : bool :=
  match o with Some n => negb (n =? 0)%Z | None => false end.

(** [o || d] on an optional string and on an optional number *)
Definition orStr (o : option string) (d : string) : string :=
  if truthyStr o then match o with Some s => s | None => d end else d.

Definition orNum (o : option Z) (d : Z) : Z :=
  if truthyNum o then match o with Some n => n | None => d end else d.

(** [new TypeError(f + ' is not a function')]: what calling an undefined
    binding throws. *)
Definition notAFunction (f : string) : JsError :=
  mkError (Some "TypeError") (Some (f ++ " is not a function")) None None.

(** How a call ends. *)
Inductive Outcome (A : Type) : Type :=
| Return : A -> Outcome A
| Throw : JsError -> Outcome A.

Arguments Return {A} _.
Arguments Throw {A} _.

(** Computations over a world [W]: the world that a computation leaves
    behind is kept when it throws, as it is in the source, where nothing
    is rolled back. *)
Definition M (W A : Type) : Type := W -> W * Outcome A.

Definition ret {W A : Type} (a : A) : M W A := fun w => (w, Return a).

Definition throw {W A : Type} (e : JsError) : M W A := fun w => (w, Throw e).

Definition bind {W A B : Type} (m : M W A) (k : A -> M W B) : M W B :=
  fun w =>
    match m w with
    | (w', Return a) => k a w'
    | (w', Throw e) => (w', Throw e)
    end.

(** [try { body } catch (error) { handler }] *)
Definition tryCatch {W A : Type} (body : M W A) (handler : JsError -> M W A)
  : M W A :=
  fun w =>
    match body w with
    | (w', Return a) => (w', Return a)
    | (w', Throw e) => handler e w'
    end.

Definition gets {W A : Type} (f : W -> A) : M W A := fun w => (w, Return (f w)).

Definition modify {W : Type} (f : W -> W) : M W unit := fun w => (f w, Return tt).

End Js.

Export Js.

Declare Scope js_scope.
Delimit Scope js_scope with js.
Notation "x <- m ;; k" := (bind m (fun x => k))
  (at level 61, m at next level, right associativity) : js_scope.
Local Open Scope js_scope.

(* ===================================================================== *)
(** * src/utils/helpers.js *)
(* ===================================================================== *)

Module Helpers.

Import JsString Regex.

(** [[^@\s]] *)
Definition emailAtom (c : ascii) : bool :=
  negb (Ascii.eqb c "@") && negb (isSpace c).

(** [/^[^@\s]+@[^@\s]+\.[^@\s]+$/] *)
Definition emailRegex : re :=
  Seq (Plus (Class emailAtom))
    (Seq (Lit "@")
       (Seq (Plus (Class emailAtom))
          (Seq (Lit ".") (Plus (Class emailAtom))))).

Definition isValidEmail (email : JsVal) : bool :=
  match email with
  | JUndefined | JNull => false
  | JStr s => if isEmpty (trim s) then false else test emailRegex s
  | _ => false
  end.

Definition sanitizeString (str : JsVal) : string :=
  match str with
  | JUndefined | JNull => EmptyString
  | JStr s => stripTags (trim s)
  | _ => EmptyString
  end.

(** The names [helpers.js] exports are [isValidEmail], [formatDate],
    [truncateString], [sanitizeString] and [generateRandomString].  The
    goal service, the goal controller and the authorization middleware
    import one more, [isValidObjectId]; the file neither defines nor
    exports it, so the binding they get is undefined. *)
Definition isValidObjectId : option (string -> bool) := None.

(** [''] for what is not a string, the string itself when [maxLength] is
    missing, not a number or below 1, or when the string is no longer than
    [maxLength]; else its first [maxLength] characters and ['...']. *)
Definition truncateString (str maxLength : JsVal) : string :=
  match str with
  | JStr s =>
      match maxLength with
      | JNum n =>
          if (n <? 1)%Z then s
          else if (Z.of_nat (String.length s) <=? n)%Z then s
          else (substring 0 (Z.to_nat n) s ++ "...")%string
      | _ => s
      end
  | _ => EmptyString
  end.

(** A pattern that matches one string, and [r?]. *)
Fixpoint Str (s : string) : re :=
  match s with
  | EmptyString => Eps
  | String c r => Seq (Lit c) (Str r)
  end.

Definition Opt (r : re) : re := Alt Eps r.

(** [(YYYY|MM|DD)] *)
Definition formatToken : re := Alt (Str "YYYY") (Alt (Str "MM") (Str "DD")).

(** [/^(YYYY|MM|DD)(-(YYYY|MM|DD)){0,2}$/] *)
Definition validFormatRegex : re :=
  Seq formatToken
    (Seq (Opt (Seq (Lit "-") formatToken))
       (Opt (Seq (Lit "-") formatToken))).


End Helpers.

(* ===================================================================== *)
(** * Contracts of the external libraries *)
(* ===================================================================== *)

(** [bcrypt]: salted one-way hashing.  The contract is the one of section
    4.1 of the specification: [compare] answers true exactly on the
    plaintext that was hashed, a hash is never its plaintext, and a hash
    string is long (60 characters in the library) whatever the input.
    It is the usual idealisation: collisions, and the cut the library
    makes after 72 bytes of input, are left out. *)
Module Bcrypt.

Class Lib : Type := {
  Salt : Type;
  genSaltFrom : nat -> nat -> Salt;
  hash : string -> Salt -> string;
  compare : string -> string -> bool;
  compare_hash : forall p q s, compare p (hash q s) = String.eqb p q;
  hash_not_plain : forall p s, hash p s <> p;
  hash_length : forall p s, (8 <= String.length (hash p s))%nat
}.

End Bcrypt.

(** [jsonwebtoken]: signed, time-bounded tokens.  Times are in seconds.
    A token signed at [iat] with life [ttl] carries [exp = iat + ttl];
    [verify] at time [t] throws [TokenExpiredError] when [t >= exp]. *)
Module Jwt.

Record Claims : Type := {
  userId : option string;
  email : option string
}.

Definition TokenExpiredError : JsError :=
  mkError (Some "TokenExpiredError") (Some "jwt expired") None None.

Definition JsonWebTokenError (msg : string) : JsError :=
  mkError (Some "JsonWebTokenError") (Some msg) None None.

(** A token travels in a header as one word. *)
Definition oneWord (t : string) : bool :=
  negb (JsString.isEmpty t)
  && JsString.stringAll (fun c => negb (JsString.isSpace c)) t.

Class Lib : Type := {
  sign : Claims -> string -> Z -> Z -> string;
  verify : string -> string -> Z -> Claims + JsError;
  verify_sign : forall c k iat ttl t,
    k <> EmptyString ->
    verify (sign c k iat ttl) k t =
    if (iat + ttl <=? t)%Z then inr TokenExpiredError else inl c;
  sign_oneWord : forall c k iat ttl, oneWord (sign c k iat ttl) = true
}.

End Jwt.

(** [crypto]: [randomBytes(size)] gives [size] bytes, drawn from the
    entropy. *)
Module Crypto.

Class Lib : Type := {
  randomBytes : nat -> nat -> list Byte.byte;
  randomBytes_length : forall size e, List.length (randomBytes size e) = size
}.

End Crypto.


(** Reference implementations of the two contracts, on which the
    scenario below runs: a hash that keeps the plaintext behind a
    salted prefix, and a token that spells out its payload, its expiry
    and its key.  That they meet the contracts is proved with the
    properties. *)
Module Reference.

Import JsString.

(** *** bcrypt *)

Definition hash (p : string) (s : ascii) : string :=
  "$2b$10$" ++ String s p.

Definition compare (p h : string) : bool :=
  match h with
  | String "$" (String "2" (String "b" (String "$" (String "1" (String "0"
      (String "$" (String _ q))))))) => String.eqb p q
  | _ => false
  end.

(** *** jsonwebtoken *)

Definition bitChar (b : bool) : ascii := if b then "1"%char else "0"%char.

Definition charBit (c : ascii) : bool := Ascii.eqb c "1".

Definition encChar (c : ascii) (r : string) : string :=
  match c with
  | Ascii b0 b1 b2 b3 b4 b5 b6 b7 =>
      String (bitChar b0) (String (bitChar b1) (String (bitChar b2)
        (String (bitChar b3) (String (bitChar b4) (String (bitChar b5)
          (String (bitChar b6) (String (bitChar b7) r)))))))
  end.

Fixpoint encStr (s : string) (r : string) : string :=
  match s with
  | EmptyString => String "." r
  | String c s' => encChar c (encStr s' r)
  end.

Fixpoint decStr (s : string) : option (string * string) :=
  match s with
  | EmptyString => None
  | String c0 r0 =>
      if Ascii.eqb c0 "." then Some (EmptyString, r0)
      else
        match r0 with
        | String c1 (String c2 (String c3 (String c4 (String c5 (String c6
            (String c7 r))))))  =>
            match decStr r with
            | Some (x, rest) =>
                Some (String (Ascii (charBit c0) (charBit c1) (charBit c2)
                                (charBit c3) (charBit c4) (charBit c5)
                                (charBit c6) (charBit c7)) x, rest)
            | None => None
            end
        | _ => None
        end
  end.

Definition encOpt (o : option string) (r : string) : string :=
  match o with
  | None => String "N" r
  | Some s => String "S" (encStr s r)
  end.

Definition decOpt (s : string) : option (option string * string) :=
  match s with
  | EmptyString => None
  | String c r =>
      if Ascii.eqb c "N" then Some (None, r)
      else if Ascii.eqb c "S" then
        match decStr r with
        | Some (x, rest) => Some (Some x, rest)
        | None => None
        end
      else None
  end.

Fixpoint encPos (p : positive) (r : string) : string :=
  match p with
  | xH => String "e" r
  | xO q => String "0" (encPos q r)
  | xI q => String "1" (encPos q r)
  end.

Fixpoint decPos (s : string) : option (positive * string) :=
  match s with
  | EmptyString => None
  | String c r =>
      if Ascii.eqb c "e" then Some (xH, r)
      else
        match decPos r with
        | Some (q, rest) =>
            if Ascii.eqb c "0" then Some (xO q, rest)
            else if Ascii.eqb c "1" then Some (xI q, rest)
            else None
        | None => None
        end
  end.

Definition encZ (z : Z) (r : string) : string :=
  match z with
  | Z0 => String "z" r
  | Zpos p => String "p" (encPos p r)
  | Zneg p => String "n" (encPos p r)
  end.

Definition decZ (s : string) : option (Z * string) :=
  match s with
  | EmptyString => None
  | String c r =>
      if Ascii.eqb c "z" then Some (Z0, r)
      else
        match decPos r with
        | Some (p, rest) =>
            if Ascii.eqb c "p" then Some (Zpos p, rest)
            else if Ascii.eqb c "n" then Some (Zneg p, rest)
            else None
        | None => None
        end
  end.

(** A token is the payload, the expiry and, standing for the signature,
    the key. *)
Definition sign (c : Jwt.Claims) (k : string) (iat ttl : Z) : string :=
  encOpt (Jwt.userId c) (encOpt (Jwt.email c)
    (encZ (iat + ttl) (encStr k EmptyString))).

Definition verify (token k : string) (t : Z) : Jwt.Claims + JsError :=
  match decOpt token with
  | Some (u, r1) =>
      match decOpt r1 with
      | Some (e, r2) =>
          match decZ r2 with
          | Some (exp, r3) =>
              match decStr r3 with
              | Some (k', EmptyString) =>
                  if negb (String.eqb k' k)
                  then inr (Jwt.JsonWebTokenError "invalid signature")
                  else if (exp <=? t)%Z then inr Jwt.TokenExpiredError
                  else inl {| Jwt.userId := u; Jwt.email := e |}
              | _ => inr (Jwt.JsonWebTokenError "jwt malformed")
              end
          | None => inr (Jwt.JsonWebTokenError "jwt malformed")
          end
      | None => inr (Jwt.JsonWebTokenError "jwt malformed")
      end
  | None => inr (Jwt.JsonWebTokenError "jwt malformed")
  end.

Definition noSpace (s : string) : bool :=
  stringAll (fun c => negb (isSpace c)) s.

(** *** crypto *)

Definition byteAt (e i : nat) : Byte.byte :=
  match Byte.of_nat ((e * 31 + i * 7) mod 256) with
  | Some b => b
  | None => Byte.x00
  end.

Definition randomBytes (size e : nat) : list Byte.byte :=
  map (byteAt e) (seq 0 size).

End Reference.

(* ===================================================================== *)
(** * api/models/User.js, api/models/Goal.js *)
(* ===================================================================== *)

Module User.

Import JsString Regex.

Record doc : Type := {
  _id : string;
  username : string;
  email : string;
  password : option string;
  createdAt : Z;
  updatedAt : option Z
}.

(** A document in memory, with the paths set since it was built or
    loaded ([isModified]). *)
Record document : Type := {
  fields : doc;
  modified : list string
}.

Definition isModified (path : string) (d : document) : bool :=
  existsb (String.eqb path) (modified d).

Definition isWordChar (c : ascii) : bool :=
  let n := nat_of_ascii c in
  ((97 <=? n)%nat && (n <=? 122)%nat)
  || ((65 <=? n)%nat && (n <=? 90)%nat)
  || ((48 <=? n)%nat && (n <=? 57)%nat)
  || (n =? 95)%nat.

(** [/^[a-zA-Z0-9_]+$/] *)
Definition usernameRegex : re := Plus (Class isWordChar).

(** [[^\s@]] *)
Definition emailAtom (c : ascii) : bool :=
  negb (isSpace c) && negb (Ascii.eqb c "@").

(** [/^[^\s@]+@[^\s@]+\.[^\s@]+$/] *)
Definition emailRegex : re :=
  Seq (Plus (Class emailAtom))
    (Seq (Lit "@")
       (Seq (Plus (Class emailAtom))
          (Seq (Lit ".") (Plus (Class emailAtom))))).

(** Schema setters: [trim] on [username]; [lowercase] and [trim] on
    [email]. *)
Definition setUsername (v : string) : string := trim v.
Definition setEmail (v : string) : string := toLowerCase (trim v).

(** Schema validators: [required], [minlength], [maxlength] and
    [validate] of each path. *)
Definition validUsername (v : string) : bool :=
  negb (isEmpty v)
  && (3 <=? String.length v)%nat && (String.length v <=? 50)%nat
  && test usernameRegex v.

Definition validEmail (v : string) : bool :=
  negb (isEmpty v) && test emailRegex v.

Definition validPassword (v : option string) : bool :=
  match v with
  | Some p => negb (isEmpty p) && (8 <=? String.length p)%nat
  | None => false
  end.

Definition validate (d : doc) : bool :=
  validUsername (username d) && validEmail (email d)
  && validPassword (password d).

Definition ValidationError : JsError :=
  mkError (Some "ValidationError") (Some "User validation failed") None None.

(** [select: false] on [password]: a query leaves the path out unless it
    asks for it with [select('+password')]. *)
Definition project (withPassword : bool) (d : doc) : doc :=
  if withPassword then d
  else {| _id := _id d; username := username d; email := email d;
          password := None; createdAt := createdAt d;
          updatedAt := updatedAt d |}.

End User.

Module Goal.

Import JsString.

Record doc : Type := {
  _id : string;
  userId : string;
  title : string;
  description : string;
  targetDate : option Z;
  progress : Z;
  createdAt : Z;
  updatedAt : Z
}.

(** Schema setter: [trim] on [title]. *)
Definition setTitle (v : string) : string := trim v.

(** Schema validators; the one of [targetDate] reads the clock. *)
Definition validTitle (v : string) : bool :=
  negb (isEmpty v) && (String.length v <=? 100)%nat.

Definition validDescription (v : string) : bool :=
  (String.length v <=? 500)%nat.

Definition validTargetDate (clock : Z) (v : option Z) : bool :=
  match v with Some d => (clock <? d)%Z | None => true end.

Definition validProgress (v : Z) : bool := (0 <=? v)%Z && (v <=? 100)%Z.

Definition validate (clock : Z) (d : doc) : bool :=
  validTitle (title d) && validDescription (description d)
  && validTargetDate clock (targetDate d) && validProgress (progress d).

Definition ValidationError : JsError :=
  mkError (Some "ValidationError") (Some "Goal validation failed") None None.

(** Two documents hold the same value on every path: the second has no
    modified path when it was loaded as the first. *)
Definition sameValues (a b : doc) : bool :=
  String.eqb (_id a) (_id b) && String.eqb (userId a) (userId b)
  && String.eqb (title a) (title b)
  && String.eqb (description a) (description b)
  && match targetDate a, targetDate b with
     | Some x, Some y => (x =? y)%Z
     | None, None => true
     | _, _ => false
     end
  && (progress a =? progress b)%Z
  && (createdAt a =? createdAt b)%Z && (updatedAt a =? updatedAt b)%Z.

End Goal.

(** The error of the store driver on a unique index. *)
Definition DuplicateKeyError (index : string) : JsError :=
  mkError (Some "MongoServerError")
    (Some ("E11000 duplicate key error index: " ++ index))
    (Some 11000%Z) None.

(** What the operations act on: the two collections, the clock (in
    milliseconds) and the entropy that object ids and salts are drawn
    from.  An operation reads one instant from the clock, however often
    the source asks for the time while it runs. *)
Record World : Type := {
  users : list User.doc;
  goals : list Goal.doc;
  now : Z;
  entropy : nat
}.

Definition withUsers (us : list User.doc) (w : World) : World :=
  {| users := us; goals := goals w; now := now w; entropy := entropy w |}.

Definition withGoals (gs : list Goal.doc) (w : World) : World :=
  {| users := users w; goals := gs; now := now w; entropy := entropy w |}.

Definition draw : M World nat :=
  fun w =>
    ({| users := users w; goals := goals w; now := now w;
        entropy := S (entropy w) |}, Return (entropy w)).

(** [process.env] *)
Record Env : Type := {
  JWT_SECRET : string;
  JWT_EXPIRES_IN : option Z
}.

(** ** Requests and responses *)

(** [req.user], as the authorization middleware sets it. *)
Record ReqUser : Type := {
  ru_userId : string;
  ru_email : string
}.

(** The parts of a request the middleware and the goal handlers read. *)
Record Request : Type := {
  headers_authorization : option string;
  params_goalId : option string;
  body_title : JsVal;
  body_description : JsVal;
  body_targetDate : JsVal;
  body_progress : JsVal;
  user : option ReqUser
}.

Definition setUser (u : ReqUser) (req : Request) : Request :=
  {| headers_authorization := headers_authorization req;
     params_goalId := params_goalId req;
     body_title := body_title req;
     body_description := body_description req;
     body_targetDate := body_targetDate req;
     body_progress := body_progress req;
     user := Some u |}.

Inductive Body : Type :=
| ErrorBody (message : string) (code : Z) (statusText : string)
| GoalBody (goal : Goal.doc)
| MessageBody (message : string).

(** [res.status(status).json(body)] *)
Record Response : Type := {
  status : Z;
  json : Body
}.

(** What a regular expression matches, by its shape. *)
Module RegexSemantics.

Import Regex.

Inductive matches : re -> string -> Prop :=
| MEps : matches Eps EmptyString
| MClass (p : ascii -> bool) (c : ascii) :
    p c = true -> matches (Class p) (String c EmptyString)
| MSeq (a b : re) (s t : string) :
    matches a s -> matches b t -> matches (Seq a b) (s ++ t)
| MAltL (a b : re) (s : string) : matches a s -> matches (Alt a b) s
| MAltR (a b : re) (s : string) : matches b s -> matches (Alt a b) s
| MStarNil (a : re) : matches (Star a) EmptyString
| MStarApp (a : re) (s t : string) :
    matches a s -> matches (Star a) t -> matches (Star a) (s ++ t).

End RegexSemantics.

(* ===================================================================== *)
(** * A scenario *)
(* ===================================================================== *)

(** The end-to-end scenario of the specification, on the reference
    libraries: [alice01] registers with [a@b.com] and [longpass1]; a
    second user and two goals are there for the goal operations. *)
Module Scenario.

Import JsString Reference.

Definition env : Env := {| JWT_SECRET := "s3cret"; JWT_EXPIRES_IN := None |}.

Definition newObjectId (n : nat) : string :=
  "64b5f0c2a1d3e4f5a6b7c8"
  ++ String (ascii_of_nat (48 + n / 10))
       (String (ascii_of_nat (48 + n mod 10)) EmptyString).

Definition Date_parse (s : string) : option Z :=
  if String.eqb s "2030-01-01" then Some 1893456000000%Z else None.

Definition start : World :=
  {| users := []; goals := []; now := 1700000000000; entropy := 0 |}.

Definition alice : User.doc :=
  {| User._id := "64b5f0c2a1d3e4f5a6b7c801";
     User.username := "alice01";
     User.email := "a@b.com";
     User.password := Some "$2b$10$c$2b$10$alongpass1";
     User.createdAt := 1700000000000;
     User.updatedAt := Some 1700000000000%Z |}.

Definition bob : User.doc :=
  {| User._id := "64b5f0c2a1d3e4f5a6b7c804";
     User.username := "bob02";
     User.email := "bob@b.com";
     User.password := Some "$2b$10$dbobspass1";
     User.createdAt := 1700000000000;
     User.updatedAt := Some 1700000000000%Z |}.

(** The world after the registration of [alice01]. *)
Definition registered : World :=
  {| users := [alice]; goals := []; now := 1700000000000; entropy := 3 |}.

Definition bobGoal : Goal.doc :=
  {| Goal._id := "64b5f0c2a1d3e4f5a6b7c810";
     Goal.userId := User._id bob;
     Goal.title := "Run 10k";
     Goal.description := "Before summer";
     Goal.targetDate := Some 1893456000000%Z;
     Goal.progress := 25;
     Goal.createdAt := 1700000000000;
     Goal.updatedAt := 1700000000000 |}.

Definition aliceGoal : Goal.doc :=
  {| Goal._id := "64b5f0c2a1d3e4f5a6b7c811";
     Goal.userId := User._id alice;
     Goal.title := "Swim 1k";
     Goal.description := "Twice a week";
     Goal.targetDate := Some 1893456000000%Z;
     Goal.progress := 40;
     Goal.createdAt := 1700000000000;
     Goal.updatedAt := 1700000000000 |}.

(** A later world with both users and both goals. *)
Definition later : World :=
  {| users := [alice; bob]; goals := [bobGoal; aliceGoal];
     now := 1700000500000; entropy := 9 |}.

Definition aliceClaims : Jwt.Claims :=
  {| Jwt.userId := Some (User._id alice); Jwt.email := Some "a@b.com" |}.

(** A token for [alice], signed at the time of [registered] for a day,
    and one signed for no time at all. *)
Definition aliceToken : string := sign aliceClaims "s3cret" 1700000000 86400.

Definition spentToken : string := sign aliceClaims "s3cret" 1700000000 0.

Definition request (authorization : option string) (goalId : option string)
  : Request :=
  {| headers_authorization := authorization;
     params_goalId := goalId;
     body_title := JUndefined;
     body_description := JUndefined;
     body_targetDate := JUndefined;
     body_progress := JUndefined;
     user := None |}.

Definition bearer (token : string) : Request :=
  request (Some ("Bearer " ++ token)) (Some (Goal._id aliceGoal)).

(** A handler that answers 200 whatever it is given. *)
Definition handler (req : Request) : M World Response :=
  ret {| status := 200; json := MessageBody "handled" |}.

End Scenario.

(* ===================================================================== *)
(** * The program *)
(* ===================================================================== *)

Section Program.

Import JsString.

Set Default Proof Using "Type".

Context {bcrypt : Bcrypt.Lib} {jwt : Jwt.Lib}.

(** [process.env], read once. *)
Variable env : Env.

(** Whether the store runs the setters of a path ([lowercase], [trim])
    on the value a filter gives for it.  The store library does so from
    its version 5 on: there this is [true].  It is a parameter because
    most results hold either way; a result that depends on it is stated
    at [true]. *)
Variable runSettersOnQuery : bool.

(** [new ObjectId()] from the entropy drawn. *)
Variable newObjectId : nat -> string.

(** [new Date(s)] on a string: [None] is [Invalid Date]. *)
Variable Date_parse : string -> option Z.

(** The binding the importing modules get for [isValidObjectId].  With
    [src/utils/helpers.js] as it is, this is [Helpers.isValidObjectId]. *)
Variable isValidObjectId : option (string -> bool).

(** The call [isValidObjectId(x)]. *)
Definition callIsValidObjectId (x : string) : M World bool :=
  match isValidObjectId with
  | Some f => ret (f x)
  | None => throw (notAFunction "isValidObjectId")
  end.

(** ** The [User] model *)

(** [bcrypt.genSalt(rounds)] *)
Definition genSalt (rounds : nat) : M World Bcrypt.Salt :=
  n <- draw ;; ret (Bcrypt.genSaltFrom rounds n).

(** [bcrypt.hash(data, salt)]; without data the library throws. *)
Definition bcryptHash (data : option string) (salt : Bcrypt.Salt)
  : M World string :=
  match data with
  | Some p => ret (Bcrypt.hash p salt)
  | None =>
      throw (mkError (Some "Error")
               (Some "data and salt arguments required") None None)
  end.

(** [new User({ username, email, password })]: the setters run, the id is
    drawn, [createdAt] takes its default, and the three paths are marked
    modified. *)
Definition User_new (username email password : string)
  : M World User.document :=
  n <- draw ;;
  t <- gets now ;;
  ret {| User.fields :=
           {| User._id := newObjectId n;
              User.username := User.setUsername username;
              User.email := User.setEmail email;
              User.password := Some password;
              User.createdAt := t;
              User.updatedAt := None |};
         User.modified := ["username"; "email"; "password"] |}.

(** [userSchema.pre('save', ...)] *)
Definition User_preSave (this : User.document) : M World User.document :=
  if negb (User.isModified "password" this) then ret this
  else
    tryCatch
      (salt <- genSalt 10 ;;
       h <- bcryptHash (User.password (User.fields this)) salt ;;
       ret {| User.fields :=
                {| User._id := User._id (User.fields this);
                   User.username := User.username (User.fields this);
                   User.email := User.email (User.fields this);
                   User.password := Some h;
                   User.createdAt := User.createdAt (User.fields this);
                   User.updatedAt := User.updatedAt (User.fields this) |};
              User.modified := User.modified this |})
      (fun error => throw error).

(** [document.save()] of a new user: validation, the [pre('save')] hook,
    the timestamps, then the insertion, which the unique indexes on
    [username] and [email] can refuse. *)
Definition User_save (d : User.document) : M World User.doc :=
  if negb (User.validate (User.fields d)) then throw User.ValidationError
  else
    d' <- User_preSave d ;;
    t <- gets now ;;
    us <- gets users ;;
    let u := {| User._id := User._id (User.fields d');
                User.username := User.username (User.fields d');
                User.email := User.email (User.fields d');
                User.password := User.password (User.fields d');
                User.createdAt := User.createdAt (User.fields d');
                User.updatedAt := Some t |} in
    if existsb (fun x => String.eqb (User.username x) (User.username u)) us
    then throw (DuplicateKeyError "username_1")
    else if existsb (fun x => String.eqb (User.email x) (User.email u)) us
    then throw (DuplicateKeyError "email_1")
    else
      _ <- modify (withUsers (us ++ [u])) ;;
      ret u.

(** The value a filter [{ email }] is matched with: the value given,
    through the setters of the path when the store runs them. *)
Definition castEmail (e : string) : string :=
  if runSettersOnQuery then User.setEmail e else e.

(** [User.findOne({ email })], with or without [select('+password')] *)
Definition User_findOne (withPassword : bool) (e : string)
  : M World (option User.doc) :=
  us <- gets users ;;
  ret (option_map (User.project withPassword)
         (find (fun u => String.eqb (User.email u) (castEmail e)) us)).

(** [User.findById(id)] *)
Definition User_findById (id : string) : M World (option User.doc) :=
  us <- gets users ;;
  ret (option_map (User.project false)
         (find (fun u => String.eqb (User._id u) id) us)).

(** [bcrypt.compare(password, user.password)] *)
Definition bcryptCompare (p : string) (h : option string) : M World bool :=
  match h with
  | Some h' => ret (Bcrypt.compare p h')
  | None =>
      throw (mkError (Some "Error")
               (Some "data and hash arguments required") None None)
  end.

(** [userSchema.statics.findByCredentials] *)
Definition User_findByCredentials (email password : string)
  : M World (option User.doc) :=
  tryCatch
    (user <- User_findOne true email ;;
     match user with
     | None => ret None
     | Some u =>
         isMatch <- bcryptCompare password (User.password u) ;;
         if negb isMatch then ret None else ret (Some u)
     end)
    (fun error => throw error).

(** ** api/services/authService.js *)

Definition optNum (o : option Z) : JsVal :=
  match o with Some n => JNum n | None => JUndefined end.

(** The object literal both [register] and [login] build from a user. *)
Definition publicUser (u : User.doc) : JsObject :=
  [ ("username", JStr (User.username u));
    ("email", JStr (User.email u));
    ("id", JStr (User._id u));
    ("createdAt", JNum (User.createdAt u));
    ("updatedAt", optNum (User.updatedAt u)) ].

Definition register (username email password : JsVal) : M World JsObject :=
  let sanitizedUsername := Helpers.sanitizeString username in
  let sanitizedEmail := Helpers.sanitizeString email in
  let sanitizedPassword := Helpers.sanitizeString password in
  if isEmpty sanitizedUsername || isEmpty (trim sanitizedUsername)
  then throw (apiError "Username is required" 400 "Bad Request")
  else if isEmpty sanitizedEmail || isEmpty (trim sanitizedEmail)
  then throw (apiError "Email is required" 400 "Bad Request")
  else if negb (Helpers.isValidEmail (JStr sanitizedEmail))
  then throw (apiError "Invalid email format" 400 "Bad Request")
  else if isEmpty sanitizedPassword
          || (String.length sanitizedPassword <? 8)%nat
  then throw (apiError "Password must be at least 8 characters long" 400
                "Bad Request")
  else
    tryCatch
      (existingUser <- User_findOne false sanitizedEmail ;;
       match existingUser with
       | Some _ =>
           throw (apiError "User with this email already exists" 400
                    "Bad Request")
       | None =>
           salt <- genSalt 10 ;;
           hashedPassword <- bcryptHash (Some sanitizedPassword) salt ;;
           newUser <- User_new sanitizedUsername sanitizedEmail
                        hashedPassword ;;
           savedUser <- User_save newUser ;;
           ret (publicUser savedUser)
       end)
      (fun error =>
         if truthyStr (e_message error) && truthyNum (e_code error)
         then throw error
         else throw (mkError None
                       (Some (orStr (e_message error)
                                "Failed to register user"))
                       (Some 500%Z) (Some "Internal Server Error"))).

Record LoginResult : Type := {
  lr_message : string;
  lr_token : string;
  lr_user : JsObject
}.

(** [jwt.sign(payload, secret, { expiresIn })] at the current second *)
Definition jwtSign (payload : Jwt.Claims) (secret : string) (expiresIn : Z)
  : M World string :=
  if isEmpty secret
  then throw (mkError (Some "Error")
                (Some "secretOrPrivateKey must have a value") None None)
  else
    t <- gets now ;;
    ret (Jwt.sign payload secret (t / 1000)%Z expiresIn).

(** [jwt.verify(token, secret)] at the current second *)
Definition jwtVerify (token secret : string) : M World Jwt.Claims :=
  if isEmpty secret
  then throw (Jwt.JsonWebTokenError "secret or public key must be provided")
  else
    t <- gets now ;;
    match Jwt.verify token secret (t / 1000)%Z with
    | inl decoded => ret decoded
    | inr error => throw error
    end.

(** [process.env.JWT_EXPIRES_IN || '1d'], in seconds *)
Definition expiresIn : Z :=
  match JWT_EXPIRES_IN env with Some s => s | None => 86400%Z end.

Definition login (email password : JsVal) : M World LoginResult :=
  let sanitizedEmail := Helpers.sanitizeString email in
  let sanitizedPassword := Helpers.sanitizeString password in
  if isEmpty sanitizedEmail || isEmpty (trim sanitizedEmail)
  then throw (apiError "Email is required" 400 "Bad Request")
  else if negb (Helpers.isValidEmail (JStr sanitizedEmail))
  then throw (apiError "Invalid email format" 400 "Bad Request")
  else if isEmpty sanitizedPassword
          || (String.length sanitizedPassword <? 8)%nat
  then throw (apiError "Password must be at least 8 characters long" 400
                "Bad Request")
  else
    tryCatch
      (user <- User_findByCredentials sanitizedEmail sanitizedPassword ;;
       match user with
       | None =>
           throw (apiError "Invalid login credentials" 404 "Not Found")
       | Some u =>
           token <- jwtSign
                      {| Jwt.userId := Some (User._id u);
                         Jwt.email := Some (User.email u) |}
                      (JWT_SECRET env) expiresIn ;;
           ret {| lr_message := "Login successful";
                  lr_token := token;
                  lr_user := publicUser u |}
       end)
      (fun error =>
         if truthyStr (e_message error) && truthyNum (e_code error)
         then throw error
         else throw (mkError None
                       (Some (orStr (e_message error)
                                "Login failed. Please try again."))
                       (Some (orNum (e_code error) 500%Z))
                       (Some (orStr (e_statusText error)
                                "Internal Server Error")))).

(** [verifyToken] *)
Definition verifyToken (token : string) : M World Jwt.Claims :=
  if isEmpty token
  then throw (apiError "JWT token is missing" 400 "Bad Request")
  else
    tryCatch (jwtVerify token (JWT_SECRET env))
      (fun error =>
         throw (mkError None
                  (Some (orStr (e_message error) "Invalid or expired token"))
                  (Some 401%Z) (Some "Unauthorized"))).

(** ** The [Goal] model *)

(** [Goal.findOne({ _id: goalId, userId: userId })] *)
Definition Goal_findOne (goalId userId : string) : M World (option Goal.doc) :=
  gs <- gets goals ;;
  ret (find (fun g => String.eqb (Goal._id g) goalId
                      && String.eqb (Goal.userId g) userId) gs).

Fixpoint replaceFirst (p : Goal.doc -> bool) (g' : Goal.doc)
  (gs : list Goal.doc) : list Goal.doc :=
  match gs with
  | [] => []
  | g :: r => if p g then g' :: r else g :: replaceFirst p g' r
  end.

Fixpoint removeFirst (p : Goal.doc -> bool) (gs : list Goal.doc)
  : list Goal.doc :=
  match gs with
  | [] => []
  | g :: r => if p g then r else g :: removeFirst p r
  end.

Definition touch (t : Z) (g : Goal.doc) : Goal.doc :=
  {| Goal._id := Goal._id g; Goal.userId := Goal.userId g;
     Goal.title := Goal.title g; Goal.description := Goal.description g;
     Goal.targetDate := Goal.targetDate g; Goal.progress := Goal.progress g;
     Goal.createdAt := Goal.createdAt g; Goal.updatedAt := t |}.

(** [goal.save()] of a goal [g] that was loaded as [loaded]: validation;
    then, when a path holds another value than it was loaded with,
    [updatedAt] and the update of the stored record with that id.  When
    no path is modified nothing is written and [updatedAt] stays. *)
Definition Goal_save (loaded g : Goal.doc) : M World Goal.doc :=
  t <- gets now ;;
  if negb (Goal.validate t g) then throw Goal.ValidationError
  else if Goal.sameValues loaded g then ret g
  else
    gs <- gets goals ;;
    let g' := touch t g in
    _ <- modify (withGoals
                   (replaceFirst
                      (fun x => String.eqb (Goal._id x) (Goal._id g)) g' gs)) ;;
    ret g'.

(** [new Goal({...}).save()] *)
Definition Goal_create (userId title description : string)
  (targetDate : option Z) (progress : Z) : M World Goal.doc :=
  n <- draw ;;
  t <- gets now ;;
  let g := {| Goal._id := newObjectId n; Goal.userId := userId;
              Goal.title := Goal.setTitle title;
              Goal.description := description;
              Goal.targetDate := targetDate; Goal.progress := progress;
              Goal.createdAt := t; Goal.updatedAt := t |} in
  if negb (Goal.validate t g) then throw Goal.ValidationError
  else
    gs <- gets goals ;;
    _ <- modify (withGoals (gs ++ [g])) ;;
    ret g.

(** [Goal.deleteOne({ _id: goalId, userId: userId })] *)
Definition Goal_deleteOne (goalId userId : string) : M World unit :=
  gs <- gets goals ;;
  modify (withGoals
            (removeFirst
               (fun g => String.eqb (Goal._id g) goalId
                         && String.eqb (Goal.userId g) userId) gs)).

(** ** api/services/goalService.js *)

(** [!id || !isValidObjectId(id)] *)
Definition invalidId (id : string) : M World bool :=
  if isEmpty id then ret true
  else v <- callIsValidObjectId id ;; ret (negb v).

(** [new Date(v)] as an instant; [None] is [Invalid Date].  A number is
    a time value when it is within 8.64e15 milliseconds of the epoch. *)
Definition newDate (v : JsVal) : option Z :=
  match v with
  | JUndefined => None
  | JNull => Some 0%Z
  | JBool b => Some (if b then 1 else 0)%Z
  | JNum n =>
      if (Z.abs n <=? 8640000000000000)%Z then Some n else None
  | JStr s => Date_parse s
  end.

(** [typeof progress !== 'number' || progress < 0 || progress > 100],
    on the numbers of the model: [NaN], which passes this test in the
    source, is not one of them. *)
Definition badProgress (progress : JsVal) : bool :=
  match progress with
  | JNum n => (n <? 0)%Z || (100 <? n)%Z
  | _ => true
  end.

Definition numberOf (v : JsVal) : Z :=
  match v with JNum n => n | _ => 0%Z end.

(** The catch clause the four goal operations share, up to the message. *)
Definition rethrowOr (fallback : string) {A : Type} (error : JsError)
  : M World A :=
  if truthyStr (e_message error) && truthyNum (e_code error)
  then throw error
  else throw (apiError fallback 500 "Internal Server Error").

Definition createGoal (userId : string)
  (title description targetDate progress : JsVal) : M World Goal.doc :=
  let sanitizedTitle := Helpers.sanitizeString title in
  let sanitizedDescription := Helpers.sanitizeString description in
  badUser <- invalidId userId ;;
  if badUser
  then throw (apiError "Invalid userId provided" 400 "Bad Request")
  else if isEmpty sanitizedTitle || isEmpty (trim sanitizedTitle)
  then throw (apiError "Goal title is required" 400 "Bad Request")
  else if (100 <? String.length sanitizedTitle)%nat
  then throw (apiError "Goal title must be less than 100 characters long"
                400 "Bad Request")
  else if negb (isEmpty sanitizedDescription)
          && (500 <? String.length sanitizedDescription)%nat
  then throw (apiError
                "Goal description must be less than 500 characters long"
                400 "Bad Request")
  else if negb (truthy targetDate)
  then throw (apiError "Target date is required" 400 "Bad Request")
  else
    match newDate targetDate with
    | None => throw (apiError "Invalid target date format" 400 "Bad Request")
    | Some targetDateObj =>
        t <- gets now ;;
        if (targetDateObj <=? t)%Z
        then throw (apiError "Target date must be in the future" 400
                      "Bad Request")
        else if badProgress progress
        then throw (apiError "Progress must be a number between 0 and 100"
                      400 "Bad Request")
        else
          tryCatch
            (user <- User_findById userId ;;
             match user with
             | None => throw (apiError "User not found" 404 "Not Found")
             | Some _ =>
                 Goal_create userId sanitizedTitle sanitizedDescription
                   (Some targetDateObj) (numberOf progress)
             end)
            (rethrowOr "Failed to create goal")
    end.

Definition getGoal (goalId userId : string) : M World Goal.doc :=
  badGoal <- invalidId goalId ;;
  if badGoal
  then throw (apiError "Invalid goalId provided" 400 "Bad Request")
  else
    badUser <- invalidId userId ;;
    if badUser
    then throw (apiError "Invalid userId provided" 400 "Bad Request")
    else
      tryCatch
        (user <- User_findById userId ;;
         match user with
         | None => throw (apiError "User not found" 404 "Not Found")
         | Some _ =>
             goal <- Goal_findOne goalId userId ;;
             match goal with
             | None => throw (apiError "Goal not found" 404 "Not Found")
             | Some g => ret g
             end
         end)
        (rethrowOr "Failed to retrieve goal").

(** The four conditional assignments of [updateGoal]. *)
Definition assignFields (goal : Goal.doc) (sanitizedTitle
  sanitizedDescription : string) (targetDate progress : JsVal) : Goal.doc :=
  {| Goal._id := Goal._id goal;
     Goal.userId := Goal.userId goal;
     Goal.title :=
       if negb (isEmpty sanitizedTitle) then Goal.setTitle sanitizedTitle
       else Goal.title goal;
     Goal.description :=
       if negb (isEmpty sanitizedDescription) then sanitizedDescription
       else Goal.description goal;
     Goal.targetDate :=
       if truthy targetDate then newDate targetDate
       else Goal.targetDate goal;
     Goal.progress :=
       if truthy progress then numberOf progress else Goal.progress goal;
     Goal.createdAt := Goal.createdAt goal;
     Goal.updatedAt := Goal.updatedAt goal |}.

(** The checks of [updateGoal] on the target date, when one is given. *)
Definition checkTargetDate (targetDate : JsVal) : M World unit :=
  if truthy targetDate then
    match newDate targetDate with
    | None => throw (apiError "Invalid target date format" 400 "Bad Request")
    | Some targetDateObj =>
        t <- gets now ;;
        if (targetDateObj <=? t)%Z
        then throw (apiError "Target date must be in the future" 400
                      "Bad Request")
        else ret tt
    end
  else ret tt.

Definition updateGoal (goalId userId : string)
  (title description targetDate progress : JsVal) : M World Goal.doc :=
  let sanitizedTitle := Helpers.sanitizeString title in
  let sanitizedDescription := Helpers.sanitizeString description in
  badGoal <- invalidId goalId ;;
  if badGoal
  then throw (apiError "Invalid goalId provided" 400 "Bad Request")
  else
    badUser <- invalidId userId ;;
    if badUser
    then throw (apiError "Invalid userId provided" 400 "Bad Request")
    else if negb (isEmpty sanitizedTitle)
            && (100 <? String.length sanitizedTitle)%nat
    then throw (apiError "Goal title must be less than 100 characters long"
                  400 "Bad Request")
    else if negb (isEmpty sanitizedDescription)
            && (500 <? String.length sanitizedDescription)%nat
    then throw (apiError
                  "Goal description must be less than 500 characters long"
                  400 "Bad Request")
    else
      _ <- checkTargetDate targetDate ;;
      if badProgress progress
      then throw (apiError "Progress must be a number between 0 and 100"
                    400 "Bad Request")
      else
        tryCatch
          (user <- User_findById userId ;;
           match user with
           | None => throw (apiError "User not found" 404 "Not Found")
           | Some _ =>
               goal <- Goal_findOne goalId userId ;;
               match goal with
               | None => throw (apiError "Goal not found" 404 "Not Found")
               | Some g =>
                   Goal_save g (assignFields g sanitizedTitle
                                  sanitizedDescription targetDate progress)
               end
           end)
          (rethrowOr "Failed to update goal").

Definition deleteGoal (goalId userId : string) : M World string :=
  badGoal <- invalidId goalId ;;
  if badGoal
  then throw (apiError "Invalid goalId provided" 400 "Bad Request")
  else
    badUser <- invalidId userId ;;
    if badUser
    then throw (apiError "Invalid userId provided" 400 "Bad Request")
    else
      tryCatch
        (user <- User_findById userId ;;
         match user with
         | None => throw (apiError "User not found" 404 "Not Found")
         | Some _ =>
             goal <- Goal_findOne goalId userId ;;
             match goal with
             | None => throw (apiError "Goal not found" 404 "Not Found")
             | Some _ =>
                 _ <- Goal_deleteOne goalId userId ;;
                 ret "Goal deleted successfully"
             end
         end)
        (rethrowOr "Failed to delete goal").

(** ** api/middlewares/authMiddleware.js *)

Definition unauthorized (message : string) : Response :=
  {| status := 401; json := ErrorBody message 401 "Unauthorized" |}.

(** The [try] block of [authenticate], up to the call of [next]: either
    a response is sent ([inl]) or [req.user] is set ([inr]). *)
Definition resolveUser (req : Request) (token : string)
  : M World (Response + Request) :=
  decoded <- jwtVerify token (JWT_SECRET env) ;;
  if negb (truthyStr (Jwt.userId decoded))
  then ret (inl (unauthorized
                   "Authentication failed: Invalid token payload"))
  else
    let userId :=
      Helpers.sanitizeString
        (match Jwt.userId decoded with Some s => JStr s | None => JUndefined
         end) in
    badUser <- invalidId userId ;;
    if badUser
    then ret (inl (unauthorized
             "Authentication failed: Invalid userId format in token payload"))
    else
      user <- User_findById userId ;;
      match user with
      | None =>
          ret (inl (unauthorized "Authentication failed: User not found"))
      | Some u =>
          ret (inr (setUser {| ru_userId := User._id u;
                               ru_email := User.email u |} req))
      end.

(** [authenticate(req, res, next)].  [next] starts an [async] handler:
    what that handler throws is a rejection of its own promise, which the
    [catch] clause here never sees. *)
Definition authenticate (req : Request) (next : Request -> M World Response)
  : M World Response :=
  match headers_authorization req with
  | None => ret (unauthorized "Authentication failed: No token provided")
  | Some authHeader =>
      if isEmpty authHeader
      then ret (unauthorized "Authentication failed: No token provided")
      else
        let tokenParts := split " " authHeader in
        if negb (List.length tokenParts =? 2)%nat
           || negb (String.eqb (nth 0 tokenParts EmptyString) "Bearer")
        then ret (unauthorized "Authentication failed: Invalid token format")
        else
          let token := nth 1 tokenParts EmptyString in
          if isEmpty token || isEmpty (trim token)
          then ret (unauthorized "Authentication failed: Token is empty")
          else
            r <- tryCatch (resolveUser req token)
                   (fun error =>
                      if match e_name error with
                         | Some n => String.eqb n "TokenExpiredError"
                         | None => false
                         end
                      then ret (inl (unauthorized
                                  "Authentication failed: Token Expired"))
                      else ret (inl (unauthorized
                                  (orStr (e_message error)
                                     "Authentication failed: Invalid token")))) ;;
            match r with
            | inl response => ret response
            | inr req' => next req'
            end
  end.

(** ** api/controllers/goalController.js *)

(** The response of a catch clause, once it is sent. *)
Definition errorResponse (fallback : string) (error : JsError) : Response :=
  {| status := orNum (e_code error) 500;
     json := ErrorBody (orStr (e_message error) fallback)
               (orNum (e_code error) 500)
               (orStr (e_statusText error) "Internal Server Error") |}.

(** [res.status(error.code || 500).json({...})].  A status outside 100
    to 999 is refused with a [RangeError] when the head of the response
    is written, and nothing is sent. *)
Definition sendError (fallback : string) (error : JsError)
  : M World Response :=
  let code := orNum (e_code error) 500 in
  if (code <? 100)%Z || (999 <? code)%Z
  then throw (mkError (Some "RangeError")
                (Some ("Invalid status code: "
                       ++ NilZero.string_of_int (Z.to_int code)))
                None None)
  else ret (errorResponse fallback error).

Definition badRequest (message : string) : Response :=
  {| status := 400; json := ErrorBody message 400 "Bad Request" |}.

(** [req.user.userId] *)
Definition reqUserId (req : Request) : M World string :=
  match user req with
  | Some u => ret (ru_userId u)
  | None =>
      throw (mkError (Some "TypeError")
               (Some "Cannot read properties of undefined (reading 'userId')")
               None None)
  end.

Definition paramGoalId (req : Request) : string :=
  match params_goalId req with Some s => s | None => EmptyString end.

Definition createGoalHandler (req : Request) : M World Response :=
  userId <- reqUserId req ;;
  let sanitizedTitle := Helpers.sanitizeString (body_title req) in
  let sanitizedDescription := Helpers.sanitizeString (body_description req) in
  if negb (truthy (body_title req)) || negb (truthy (body_description req))
     || negb (truthy (body_targetDate req))
     || match body_progress req with JUndefined => true | _ => false end
  then ret (badRequest
              "Title, description, targetDate and progress are required")
  else if negb (isNumber (body_progress req))
  then ret (badRequest "Progress must be a number")
  else
    tryCatch
      (newGoal <- createGoal userId (JStr sanitizedTitle)
                    (JStr sanitizedDescription) (body_targetDate req)
                    (body_progress req) ;;
       ret {| status := 201; json := GoalBody newGoal |})
      (fun error =>
         sendError "Failed to create goal. Please try again." error).

Definition getGoalHandler (req : Request) : M World Response :=
  let goalId := paramGoalId req in
  userId <- reqUserId req ;;
  if isEmpty goalId then ret (badRequest "Goal ID is required")
  else
    v <- callIsValidObjectId goalId ;;
    if negb v then ret (badRequest "Invalid goalId format")
    else
      tryCatch
        (goal <- getGoal goalId userId ;;
         ret {| status := 200; json := GoalBody goal |})
        (fun error =>
           sendError "Failed to retrieve goal. Please try again." error).

Definition updateGoalHandler (req : Request) : M World Response :=
  let goalId := paramGoalId req in
  userId <- reqUserId req ;;
  let sanitizedTitle := Helpers.sanitizeString (body_title req) in
  let sanitizedDescription := Helpers.sanitizeString (body_description req) in
  if isEmpty goalId then ret (badRequest "Goal ID is required")
  else
    v <- callIsValidObjectId goalId ;;
    if negb v then ret (badRequest "Invalid goalId format")
    else if match body_progress req with JUndefined => false | _ => true end
            && negb (isNumber (body_progress req))
    then ret (badRequest "Progress must be a number")
    else
      tryCatch
        (updatedGoal <- updateGoal goalId userId (JStr sanitizedTitle)
                          (JStr sanitizedDescription) (body_targetDate req)
                          (body_progress req) ;;
         ret {| status := 200; json := GoalBody updatedGoal |})
        (fun error =>
           sendError "Failed to update goal. Please try again." error).

Definition deleteGoalHandler (req : Request) : M World Response :=
  let goalId := paramGoalId req in
  userId <- reqUserId req ;;
  if isEmpty goalId then ret (badRequest "Goal ID is required")
  else
    v <- callIsValidObjectId goalId ;;
    if negb v then ret (badRequest "Invalid goalId format")
    else
      tryCatch
        (_ <- deleteGoal goalId userId ;;
         ret {| status := 200;
                json := MessageBody "Goal deleted successfully" |})
        (fun error =>
           sendError "Failed to delete goal. Please try again." error).

(** The router of the controller: [router.use(authMiddleware.authenticate)]
    puts the gate before each of its four routes. *)

Definition postGoal (req : Request) : M World Response :=
  authenticate req createGoalHandler.

Definition getGoalRoute (req : Request) : M World Response :=
  authenticate req getGoalHandler.

Definition putGoal (req : Request) : M World Response :=
  authenticate req updateGoalHandler.

Definition deleteGoalRoute (req : Request) : M World Response :=
  authenticate req deleteGoalHandler.

(** ** src/utils/helpers.js, [generateRandomString] *)

Context {crypto : Crypto.Lib}.

(** One of ['0'] to ['9'], ['a'] to ['f']. *)
Definition hexChar (d : nat) : ascii :=
  match String.get d "0123456789abcdef" with
  | Some c => c
  | None => "0"%char
  end.

(** [buffer.toString('hex')] *)
Fixpoint toHex (bytes : list Byte.byte) : string :=
  match bytes with
  | [] => EmptyString
  | b :: r =>
      String (hexChar (Byte.to_nat b / 16))
        (String (hexChar (Byte.to_nat b mod 16)) (toHex r))
  end.

Definition generateRandomString (length : JsVal) : M World string :=
  match length with
  | JUndefined | JNull => ret EmptyString
  | JNum n =>
      if (n <? 1)%Z
      then throw (mkError (Some "Error")
                    (Some "Length must be a number greater than 0.")
                    None None)
      else
        tryCatch
          (e <- draw ;;
           let randomBytes :=
             Crypto.randomBytes (Z.to_nat ((n + 1) / 2)) e in
           ret (substring 0 (Z.to_nat n) (toHex randomBytes)))
          (fun error => throw error)
  | _ =>
      throw (mkError (Some "Error")
               (Some "Length must be a number greater than 0.") None None)
  end.


(** ** api/controllers/authController.js *)

(** [req.body] of the registration route. *)
Record AuthRequest : Type := {
  body_username : JsVal;
  body_email : JsVal;
  body_password : JsVal
}.

Inductive AuthBody : Type :=
| AuthErrorBody (message : string) (code : Z) (statusText : string)
| UserBody (user : JsObject).

(** A response that was sent. *)
Record AuthResponse : Type := {
  auth_status : Z;
  auth_json : AuthBody
}.

(** [res.status(code).json(body)].  A status outside 100 to 999 is
    refused with a [RangeError] when the head of the response is
    written, and nothing is sent. *)
Definition sendJson (code : Z) (body : AuthBody) : M World AuthResponse :=
  if (code <? 100)%Z || (999 <? code)%Z
  then throw (mkError (Some "RangeError")
                (Some ("Invalid status code: "
                       ++ NilZero.string_of_int (Z.to_int code)))
                None None)
  else ret {| auth_status := code; auth_json := body |}.

Definition registerUser (req : AuthRequest) : M World AuthResponse :=
  if negb (truthy (body_username req)) || negb (truthy (body_email req))
     || negb (truthy (body_password req))
  then sendJson 400
         (AuthErrorBody "Username, email and password are required" 400
            "Bad Request")
  else
    let sanitizedUsername := Helpers.sanitizeString (body_username req) in
    let sanitizedEmail := Helpers.sanitizeString (body_email req) in
    let sanitizedPassword := Helpers.sanitizeString (body_password req) in
    tryCatch
      (newUser <- register (JStr sanitizedUsername) (JStr sanitizedEmail)
                    (JStr sanitizedPassword) ;;
       sendJson 200 (UserBody newUser))
      (fun error =>
         sendJson (orNum (e_code error) 500)
           (AuthErrorBody
              (orStr (e_message error)
                 "Registration failed. Please try again.")
              (orNum (e_code error) 500)
              (orStr (e_statusText error) "Internal Server Error"))).

(** ** src/utils/helpers.js, [formatDate] *)

(** [format(date, formatStr)] of [date-fns], on the instant of a valid
    date; it can throw. *)
Variable dateFns_format : Z -> string -> string + JsError.

(** What [formatDate] is given as a date: a [Date] object, whose time is
    [None] when it is an [Invalid Date], or another value. *)
Inductive DateArg : Type :=
| DateObject (time : option Z)
| DateValue (v : JsVal).

(** The date [formatDate] works on, when it gets that far. *)
Definition dateObjOf (date : DateArg) : option Z :=
  match date with
  | DateObject time => time
  | DateValue (JStr s) => Date_parse s
  | DateValue _ => None
  end.

(** [formatStr] as the pattern is tested on it; the parameter defaults to
    ['YYYY-MM-DD'], and what is not a string is turned into one, which
    the pattern does not match. *)
Definition formatStrOf (formatStr : JsVal) : option string :=
  match formatStr with
  | JUndefined => Some "YYYY-MM-DD"
  | JStr s => Some s
  | _ => None
  end.

Definition formatDate (date : DateArg) (formatStr : JsVal) : string :=
  match date with
  | DateValue JUndefined | DateValue JNull => EmptyString
  | _ =>
      match dateObjOf date with
      | None => EmptyString
      | Some dateObj =>
          match formatStrOf formatStr with
          | None => EmptyString
          | Some f =>
              if negb (Regex.test Helpers.validFormatRegex f)
              then EmptyString
              else match dateFns_format dateObj f with
                   | inl s => s
                   | inr _ => EmptyString
                   end
          end
      end
  end.


(* ===================================================================== *)
(** * Properties *)
(* ===================================================================== *)

(** ** Vocabulary of the statements *)

(** The error [login] throws for bad credentials. *)
Definition invalidCredentials : JsError :=
  apiError "Invalid login credentials" 404 "Not Found".

(** The error [register] throws for an email that is taken. *)
Definition conflict : JsError :=
  apiError "User with this email already exists" 400 "Bad Request".

(** The error the goal operations throw for a goal they do not find. *)
Definition goalNotFound : JsError :=
  apiError "Goal not found" 404 "Not Found".

(** The input checks of [login] pass: the sanitized email is not blank and
    has the shape of an email, the sanitized password has 8 characters or
    more. *)
Definition loginInputOk (email password : JsVal) : bool :=
  let e := Helpers.sanitizeString email in
  let p := Helpers.sanitizeString password in
  negb (isEmpty e || isEmpty (trim e))
  && Helpers.isValidEmail (JStr e)
  && negb (isEmpty p || (String.length p <? 8)%nat).

(** The input checks of [register] pass: those of [login], and the
    sanitized user name is not blank. *)
Definition registerInputOk (username email password : JsVal) : bool :=
  let n := Helpers.sanitizeString username in
  negb (isEmpty n || isEmpty (trim n)) && loginInputOk email password.

(** The record the store gives back for a filter [{ email: e }]. *)
Definition lookupEmail (w : World) (e : string) : option User.doc :=
  find (fun u => String.eqb (User.email u) (castEmail e)) (users w).

(** The record the store gives back for an id. *)
Definition lookupUser (w : World) (id : string) : option User.doc :=
  find (fun u => String.eqb (User._id u) id) (users w).

(** The world after [k] draws of entropy. *)
Definition advance (k : nat) (w : World) : World :=
  {| users := users w; goals := goals w; now := now w;
     entropy := k + entropy w |}.

(** The record [register] writes for sanitized inputs [n], [e], [p] in a
    world [w]: the setters have run on the user name and the email, and
    the password is hashed by [register] and again by the [pre('save')]
    hook. *)
Definition registeredUser (w : World) (n e p : string) : User.doc :=
  {| User._id := newObjectId (S (entropy w));
     User.username := User.setUsername n;
     User.email := User.setEmail e;
     User.password :=
       Some (Bcrypt.hash
               (Bcrypt.hash p (Bcrypt.genSaltFrom 10 (entropy w)))
               (Bcrypt.genSaltFrom 10 (S (S (entropy w)))));
     User.createdAt := now w;
     User.updatedAt := Some (now w) |}.

(** The request presents [token] as a bearer token: the header is there
    and splits on spaces into exactly ['Bearer'] and [token]. *)
Definition presents (req : Request) (token : string) : Prop :=
  exists authHeader,
    headers_authorization req = Some authHeader
    /\ split " " authHeader = ["Bearer"; token].

(** [req.user] for a stored record. *)
Definition reqUserOf (u : User.doc) : ReqUser :=
  {| ru_userId := User._id u; ru_email := User.email u |}.

(** The message of the 401 that the catch clause of [authenticate] sends
    for a thrown value. *)
Definition caughtMessage (error : JsError) : string :=
  if match e_name error with
     | Some n => String.eqb n "TokenExpiredError"
     | None => false
     end
  then "Authentication failed: Token Expired"
  else orStr (e_message error) "Authentication failed: Invalid token".

(** A run of characters of an email that are neither ['@'] nor white
    space, and not empty. *)
Definition emailPart (s : string) : Prop :=
  s <> EmptyString /\ stringAll Helpers.emailAtom s = true.


(** A digit of lower-case hexadecimal. *)
Definition isLowerHex (c : ascii) : bool :=
  let n := nat_of_ascii c in
  ((48 <=? n)%nat && (n <=? 57)%nat) || ((97 <=? n)%nat && (n <=? 102)%nat).


(** The user collection is well formed: no two records share an email
    or a user name, and every record passes the validators of the
    schema on its user name and email, holds its email as the setters
    leave it, and holds a password. *)
Definition usersOk (us : list User.doc) : Prop :=
  NoDup (map User.email us)
  /\ NoDup (map User.username us)
  /\ Forall (fun u =>
               User.validUsername (User.username u) = true
               /\ User.validEmail (User.email u) = true
               /\ User.setEmail (User.email u) = User.email u
               /\ User.password u <> None) us.


(** One of the three tokens a format can be made of. *)
Definition isFormatToken (s : string) : Prop :=
  s = "YYYY" \/ s = "MM" \/ s = "DD".


(** ** Running the effects *)

Ltac run :=
  unfold bind, ret, throw, tryCatch, gets, modify, draw in *; cbn beta iota.

Lemma loginInputOk_inv email password :
  loginInputOk email password = true ->
  (isEmpty (Helpers.sanitizeString email)
   || isEmpty (trim (Helpers.sanitizeString email))) = false
  /\ Helpers.isValidEmail (JStr (Helpers.sanitizeString email)) = true
  /\ (isEmpty (Helpers.sanitizeString password)
      || (String.length (Helpers.sanitizeString password) <? 8)%nat) = false.
Proof.
  unfold loginInputOk. cbv zeta. intros H.
  apply andb_prop in H. destruct H as [H H3].
  apply andb_prop in H. destruct H as [H1 H2].
  apply negb_true_iff in H1. apply negb_true_iff in H3. auto.
Qed.

Lemma registerInputOk_inv username email password :
  registerInputOk username email password = true ->
  (isEmpty (Helpers.sanitizeString username)
   || isEmpty (trim (Helpers.sanitizeString username))) = false
  /\ loginInputOk email password = true.
Proof.
  unfold registerInputOk. cbv zeta. intros H.
  apply andb_prop in H. destruct H as [H1 H2].
  apply negb_true_iff in H1. auto.
Qed.

(** [login] once its input checks are passed. *)
Lemma login_checked email password w :
  loginInputOk email password = true ->
  login email password w =
  match User_findByCredentials (Helpers.sanitizeString email)
          (Helpers.sanitizeString password) w with
  | (w', Return None) => (w', Throw invalidCredentials)
  | (w', Return (Some u)) =>
      match jwtSign {| Jwt.userId := Some (User._id u);
                       Jwt.email := Some (User.email u) |}
              (JWT_SECRET env) expiresIn w' with
      | (w'', Return token) =>
          (w'', Return {| lr_message := "Login successful";
                          lr_token := token;
                          lr_user := publicUser u |})
      | (w'', Throw error) =>
          (w'', Throw (mkError None
                         (Some (orStr (e_message error)
                                  "Login failed. Please try again."))
                         (Some (orNum (e_code error) 500%Z))
                         (Some (orStr (e_statusText error)
                                  "Internal Server Error"))))
      end
  | (w', Throw error) =>
      if truthyStr (e_message error) && truthyNum (e_code error)
      then (w', Throw error)
      else (w', Throw (mkError None
                         (Some (orStr (e_message error)
                                  "Login failed. Please try again."))
                         (Some (orNum (e_code error) 500%Z))
                         (Some (orStr (e_statusText error)
                                  "Internal Server Error"))))
  end.
Proof.
  intros H. apply loginInputOk_inv in H. destruct H as (H1 & H2 & H3).
  unfold login. cbv zeta. rewrite H1, H2, H3. cbn [negb].
  unfold tryCatch at 1. unfold bind at 1.
  destruct (User_findByCredentials _ _ w) as [w' [[u|]|error]].
  - unfold bind, jwtSign.
    destruct (isEmpty (JWT_SECRET env)); reflexivity.
  - reflexivity.
  - destruct (truthyStr (e_message error) && truthyNum (e_code error));
      reflexivity.
Qed.

(** [findByCredentials] in terms of the lookup and the comparison. *)
Lemma findByCredentials_spec e p w :
  User_findByCredentials e p w =
  match lookupEmail w e with
  | None => (w, Return None)
  | Some u =>
      match User.password u with
      | Some h => (w, Return (if Bcrypt.compare p h then Some u else None))
      | None =>
          (w, Throw (mkError (Some "Error")
                       (Some "data and hash arguments required") None None))
      end
  end.
Proof.
  unfold User_findByCredentials, User_findOne, lookupEmail, bcryptCompare.
  run. destruct (find _ (users w)) as [u|]; cbn; [|reflexivity].
  destruct (User.password u) as [h|]; cbn; [|reflexivity].
  destruct (Bcrypt.compare p h); reflexivity.
Qed.

(** C3.  Two login attempts that pass the input checks, one with an email
    the store does not hold and one with a stored email and a password
    that does not match, fail with the same thrown value: message
    'Invalid login credentials', code 404, status text 'Not Found'.  The
    store is left as it was. *)
Theorem login_failures_indistinguishable
  (w : World) (email1 password1 email2 password2 : JsVal)
  (u : User.doc) (h : string) :
  loginInputOk email1 password1 = true ->
  loginInputOk email2 password2 = true ->
  lookupEmail w (Helpers.sanitizeString email1) = None ->
  lookupEmail w (Helpers.sanitizeString email2) = Some u ->
  User.password u = Some h ->
  Bcrypt.compare (Helpers.sanitizeString password2) h = false ->
  login email1 password1 w = (w, Throw invalidCredentials)
  /\ login email2 password2 w = (w, Throw invalidCredentials)
  /\ e_message invalidCredentials = Some "Invalid login credentials"
  /\ e_code invalidCredentials = Some 404%Z
  /\ e_statusText invalidCredentials = Some "Not Found".
Proof.
  intros Ok1 Ok2 Unknown Stored Hash Mismatch.
  repeat split.
  - rewrite (login_checked _ _ w Ok1), findByCredentials_spec, Unknown.
    reflexivity.
  - rewrite (login_checked _ _ w Ok2), findByCredentials_spec, Stored, Hash,
      Mismatch.
    reflexivity.
Qed.

(** [register] once its input checks are passed. *)
Lemma register_checked username email password w :
  registerInputOk username email password = true ->
  register username email password w =
  let n := Helpers.sanitizeString username in
  let e := Helpers.sanitizeString email in
  let p := Helpers.sanitizeString password in
  match lookupEmail w e with
  | Some _ => (w, Throw conflict)
  | None =>
      let u := registeredUser w n e p in
      if negb (User.validUsername (User.username u)
               && User.validEmail (User.email u))
      then (advance 2 w,
            Throw (mkError None (Some "User validation failed")
                     (Some 500%Z) (Some "Internal Server Error")))
      else if existsb
                (fun x => String.eqb (User.username x) (User.username u))
                (users w)
      then (advance 3 w, Throw (DuplicateKeyError "username_1"))
      else if existsb (fun x => String.eqb (User.email x) (User.email u))
                (users w)
      then (advance 3 w, Throw (DuplicateKeyError "email_1"))
      else (withUsers (users w ++ [u]) (advance 3 w),
            Return (publicUser u))
  end.
Proof.
  intros H. apply registerInputOk_inv in H. destruct H as [H0 H].
  apply loginInputOk_inv in H. destruct H as (H1 & H2 & H3).
  unfold register. cbv zeta. rewrite H0, H1, H2, H3. cbn [negb].
  unfold lookupEmail, User_findOne. run.
  destruct (find _ (users w)) as [x|]; cbn [option_map]; [reflexivity|].
  unfold genSalt, bcryptHash, User_new, User_save. run.
  unfold User.validate.
  cbn [User.fields User.username User.email User.password
       entropy users goals now].
  set (h := Bcrypt.hash _ (Bcrypt.genSaltFrom 10 (entropy w))).
  assert (Hp : User.validPassword (Some h) = true).
  { unfold User.validPassword. pose proof (Bcrypt.hash_length
      (Helpers.sanitizeString password)
      (Bcrypt.genSaltFrom 10 (entropy w))) as L. fold h in L.
    destruct h as [|c h']; [cbn in L; lia|].
    cbn [isEmpty negb andb]. apply Nat.leb_le. exact L. }
  rewrite Hp, andb_true_r. unfold registeredUser.
  cbn [User.username User.email].
  destruct (User.validUsername _ && User.validEmail _); cbn [negb];
    [|reflexivity].
  unfold User_preSave, User.isModified. cbn [User.modified existsb].
  cbn [String.eqb Ascii.eqb Bool.eqb orb negb].
  unfold genSalt, bcryptHash. run.
  cbn [User.fields User.username User.email User.password User._id
       User.createdAt User.updatedAt User.modified entropy users goals now].
  fold h.
  destruct (existsb _ (users w)); [reflexivity|].
  destruct (existsb _ (users w)); reflexivity.
Qed.

(** ** Facts on the string primitives *)

Lemma isEmpty_false s : isEmpty s = false <-> s <> EmptyString.
Proof. destruct s; cbn; split; intros; congruence. Qed.

Lemma isEmpty_true s : isEmpty s = true <-> s = EmptyString.
Proof. destruct s; cbn; split; intros; congruence. Qed.

Lemma lowerChar_idem c : lowerChar (lowerChar c) = lowerChar c.
Proof. destruct c as [[] [] [] [] [] [] [] []]; reflexivity. Qed.

Lemma isUpper_lowerChar c : isUpper (lowerChar c) = false.
Proof. destruct c as [[] [] [] [] [] [] [] []]; reflexivity. Qed.

Lemma isSpace_lowerChar c : isSpace (lowerChar c) = isSpace c.
Proof. destruct c as [[] [] [] [] [] [] [] []]; reflexivity. Qed.

Lemma toLowerCase_idem s : toLowerCase (toLowerCase s) = toLowerCase s.
Proof.
  induction s as [|c s IH]; [reflexivity|].
  cbn. rewrite lowerChar_idem. f_equal. exact IH.
Qed.

Lemma toLowerCase_noUpper s :
  stringAll (fun c => negb (isUpper c)) (toLowerCase s) = true.
Proof.
  induction s as [|c s IH]; [reflexivity|].
  cbn. rewrite isUpper_lowerChar. exact IH.
Qed.

Lemma isEmpty_toLowerCase s : isEmpty (toLowerCase s) = isEmpty s.
Proof. destruct s; reflexivity. Qed.

Lemma trimStart_toLowerCase s :
  trimStart (toLowerCase s) = toLowerCase (trimStart s).
Proof.
  induction s as [|c s IH]; [reflexivity|].
  cbn. rewrite isSpace_lowerChar. destruct (isSpace c); [exact IH|reflexivity].
Qed.

Lemma trimEnd_toLowerCase s :
  trimEnd (toLowerCase s) = toLowerCase (trimEnd s).
Proof.
  induction s as [|c s IH]; [reflexivity|].
  cbn. fold (toLowerCase s). rewrite IH, isSpace_lowerChar, isEmpty_toLowerCase.
  destruct (isSpace c && isEmpty (trimEnd s)); reflexivity.
Qed.

Lemma trim_toLowerCase s : trim (toLowerCase s) = toLowerCase (trim s).
Proof. unfold trim. rewrite trimStart_toLowerCase. apply trimEnd_toLowerCase. Qed.

Lemma trimEnd_idem s : trimEnd (trimEnd s) = trimEnd s.
Proof.
  induction s as [|c s IH]; [reflexivity|].
  cbn. destruct (isSpace c && isEmpty (trimEnd s)) eqn:E; [reflexivity|].
  cbn. rewrite IH, E. reflexivity.
Qed.

Lemma trimStart_trimEnd_trimStart s :
  trimStart (trimEnd (trimStart s)) = trimEnd (trimStart s).
Proof.
  induction s as [|c s IH]; [reflexivity|].
  cbn [trimStart]. destruct (isSpace c) eqn:E; [exact IH|].
  cbn. rewrite E. cbn. rewrite E. reflexivity.
Qed.

Lemma trim_idem s : trim (trim s) = trim s.
Proof.
  unfold trim. rewrite trimStart_trimEnd_trimStart. apply trimEnd_idem.
Qed.

(** A string without white space is its own trim. *)
Lemma trim_noSpace s :
  stringAll (fun c => negb (isSpace c)) s = true -> trim s = s.
Proof.
  intros H. unfold trim.
  assert (E : trimStart s = s).
  { destruct s as [|c s]; [reflexivity|]. cbn in *.
    apply andb_prop in H. destruct H as [H _].
    apply negb_true_iff in H. rewrite H. reflexivity. }
  rewrite E. clear E. induction s as [|c s IH]; [reflexivity|].
  cbn in *. apply andb_prop in H. destruct H as [Hc Hs].
  apply negb_true_iff in Hc. rewrite Hc, (IH Hs). reflexivity.
Qed.

(** What the email setter gives is in lower case and trimmed. *)
Lemma setEmail_normal e :
  toLowerCase (User.setEmail e) = User.setEmail e
  /\ trim (User.setEmail e) = User.setEmail e
  /\ stringAll (fun c => negb (isUpper c)) (User.setEmail e) = true.
Proof.
  unfold User.setEmail. repeat split.
  - apply toLowerCase_idem.
  - rewrite trim_toLowerCase, trim_idem. reflexivity.
  - apply toLowerCase_noUpper.
Qed.

(** ** Facts on the regular expressions *)

Import Regex.

(** [related f r r']: the two expressions have one shape, and a class of
    [r'] accepts [f c] exactly when the class of [r] in its place accepts
    [c]. *)
Fixpoint related (f : ascii -> ascii) (r r' : re) : Prop :=
  match r, r' with
  | Void, Void => True
  | Eps, Eps => True
  | Class p, Class p' => forall c, p' (f c) = p c
  | Seq a b, Seq a' b' => related f a a' /\ related f b b'
  | Alt a b, Alt a' b' => related f a a' /\ related f b b'
  | Star a, Star a' => related f a a'
  | _, _ => False
  end.

Lemma related_nullable f r : forall r', related f r r' -> nullable r' = nullable r.
Proof.
  induction r as [| |p|a IHa b IHb|a IHa b IHb|a IHa]; intros [] H;
    cbn in H; try contradiction; try reflexivity.
  - destruct H as [Ha Hb]. cbn. rewrite (IHa _ Ha), (IHb _ Hb). reflexivity.
  - destruct H as [Ha Hb]. cbn. rewrite (IHa _ Ha), (IHb _ Hb). reflexivity.
Qed.

Lemma related_deriv f c r :
  forall r', related f r r' -> related f (deriv c r) (deriv (f c) r').
Proof.
  induction r as [| |p|a IHa b IHb|a IHa b IHb|a IHa]; intros [] H;
    cbn in H; try contradiction; cbn [deriv].
  - exact I.
  - exact I.
  - rewrite H. destruct (p c); exact I.
  - destruct H as [Ha Hb]. rewrite (related_nullable _ _ _ Ha).
    destruct (nullable a); cbn; auto.
  - destruct H as [Ha Hb]. cbn. auto.
  - cbn. auto.
Qed.

Lemma related_test f s :
  forall r r', related f r r' -> test r' (stringMap f s) = test r s.
Proof.
  induction s as [|c s IH]; intros r r' H; cbn.
  - apply related_nullable with (f := f). exact H.
  - apply IH. apply related_deriv. exact H.
Qed.

(** [dead r]: the expression matches nothing, by its shape. *)
Fixpoint dead (r : re) : bool :=
  match r with
  | Void => true
  | Eps => false
  | Class _ => false
  | Seq a b => dead a || dead b
  | Alt a b => dead a && dead b
  | Star _ => false
  end.

Lemma dead_nullable r : dead r = true -> nullable r = false.
Proof.
  induction r as [| |p|a IHa b IHb|a IHa b IHb|a IHa]; cbn; intros H;
    try discriminate; try reflexivity.
  - apply orb_prop in H. destruct H as [H|H].
    + rewrite (IHa H). reflexivity.
    + rewrite (IHb H). apply andb_false_r.
  - apply andb_prop in H. destruct H as [Ha Hb].
    rewrite (IHa Ha), (IHb Hb). reflexivity.
Qed.

Lemma dead_deriv c r : dead r = true -> dead (deriv c r) = true.
Proof.
  induction r as [| |p|a IHa b IHb|a IHa b IHb|a IHa]; cbn; intros H;
    try discriminate; try reflexivity.
  - apply orb_prop in H. destruct H as [H|H].
    + rewrite (dead_nullable _ H). cbn. rewrite (IHa H). reflexivity.
    + destruct (nullable a); cbn; rewrite ?(IHb H), H, ?orb_true_r;
        reflexivity.
  - apply andb_prop in H. destruct H as [Ha Hb].
    rewrite (IHa Ha), (IHb Hb). reflexivity.
Qed.

Lemma dead_test s : forall r, dead r = true -> test r s = false.
Proof.
  induction s as [|c s IH]; intros r H; cbn.
  - apply dead_nullable. exact H.
  - apply IH. apply dead_deriv. exact H.
Qed.

(** [within q r]: every class of [r] accepts only characters of [q]. *)
Fixpoint within (q : ascii -> bool) (r : re) : Prop :=
  match r with
  | Void | Eps => True
  | Class p => forall c, p c = true -> q c = true
  | Seq a b | Alt a b => within q a /\ within q b
  | Star a => within q a
  end.

Lemma within_deriv q c r : within q r -> within q (deriv c r).
Proof.
  induction r as [| |p|a IHa b IHb|a IHa b IHb|a IHa]; cbn; intros H;
    try exact I.
  - destruct (p c); exact I.
  - destruct H as [Ha Hb]. destruct (nullable a); cbn; auto.
  - destruct H as [Ha Hb]. auto.
  - auto.
Qed.

Lemma within_reject q c r :
  within q r -> q c = false -> dead (deriv c r) = true.
Proof.
  intros H Hc.
  induction r as [| |p|a IHa b IHb|a IHa b IHb|a IHa]; cbn in *;
    try reflexivity.
  - destruct (p c) eqn:E; [|reflexivity].
    rewrite (H c E) in Hc. discriminate.
  - destruct H as [Ha Hb]. destruct (nullable a); cbn;
      rewrite (IHa Ha), ?(IHb Hb); reflexivity.
  - destruct H as [Ha Hb]. rewrite (IHa Ha), (IHb Hb). reflexivity.
  - rewrite (IHa H). reflexivity.
Qed.

Lemma within_test q s :
  forall r, within q r -> test r s = true -> stringAll q s = true.
Proof.
  induction s as [|c s IH]; intros r H T; [reflexivity|].
  cbn in *. destruct (q c) eqn:E.
  - cbn. apply (IH (deriv c r)); [apply within_deriv; exact H | exact T].
  - rewrite (dead_test s _ (within_reject q c r H E)) in T. discriminate.
Qed.

(** An email that [isValidEmail] accepts has no white space. *)
Lemma isValidEmail_noSpace s :
  Helpers.isValidEmail (JStr s) = true ->
  stringAll (fun c => negb (isSpace c)) s = true.
Proof.
  cbn. destruct (isEmpty (trim s)); [discriminate|].
  apply within_test. unfold Helpers.emailRegex, Plus, Lit. cbn [within].
  assert (A : forall c, Helpers.emailAtom c = true -> negb (isSpace c) = true).
  { intros c H. apply andb_prop in H. destruct H as [_ H]. exact H. }
  assert (L : forall a c, isSpace a = false -> Ascii.eqb a c = true ->
                          negb (isSpace c) = true).
  { intros a c Ha H. apply Ascii.eqb_eq in H. subst c. rewrite Ha.
    reflexivity. }
  repeat split; try exact A; intros c; apply L; reflexivity.
Qed.

Lemma emailAtom_lowerChar c :
  User.emailAtom (lowerChar c) = Helpers.emailAtom c.
Proof. destruct c as [[] [] [] [] [] [] [] []]; reflexivity. Qed.

Lemma at_lowerChar c : Ascii.eqb "@" (lowerChar c) = Ascii.eqb "@" c.
Proof. destruct c as [[] [] [] [] [] [] [] []]; reflexivity. Qed.

Lemma dot_lowerChar c : Ascii.eqb "." (lowerChar c) = Ascii.eqb "." c.
Proof. destruct c as [[] [] [] [] [] [] [] []]; reflexivity. Qed.

(** The email validator of the schema accepts what the setters make of an
    email that [isValidEmail] accepts. *)
Lemma schema_accepts_valid_email s :
  Helpers.isValidEmail (JStr s) = true ->
  User.setEmail s = toLowerCase s
  /\ User.validEmail (User.setEmail s) = true.
Proof.
  intros V. pose proof (isValidEmail_noSpace s V) as N.
  unfold User.setEmail. rewrite (trim_noSpace s N). split; [reflexivity|].
  cbn in V. rewrite (trim_noSpace s N) in V.
  unfold User.validEmail. rewrite isEmpty_toLowerCase.
  destruct (isEmpty s); [discriminate|]. cbn [negb andb].
  rewrite <- V. apply related_test.
  unfold Helpers.emailRegex, User.emailRegex, Plus, Lit. cbn [related].
  repeat split; intros c;
    first [apply emailAtom_lowerChar | apply at_lowerChar | apply dot_lowerChar].
Qed.

(** ** Registration and login *)

Lemma find_append {A : Type} (p : A -> bool) (l l' : list A) :
  find p (l ++ l') =
  match find p l with Some x => Some x | None => find p l' end.
Proof.
  induction l as [|a l IH]; [reflexivity|].
  cbn. destruct (p a); [reflexivity|exact IH].
Qed.

(** When the input checks fail, [register] throws a 400 and leaves the
    world alone. *)
Lemma register_unchecked username email password w :
  registerInputOk username email password = false ->
  exists msg,
    register username email password w =
    (w, Throw (apiError msg 400 "Bad Request")).
Proof.
  unfold registerInputOk, loginInputOk, register. cbv zeta.
  destruct (isEmpty (Helpers.sanitizeString username)
            || isEmpty (trim (Helpers.sanitizeString username)));
    [intros _; eexists; reflexivity|].
  destruct (isEmpty (Helpers.sanitizeString email)
            || isEmpty (trim (Helpers.sanitizeString email)));
    [intros _; eexists; reflexivity|].
  destruct (Helpers.isValidEmail (JStr (Helpers.sanitizeString email)));
    [|intros _; eexists; reflexivity].
  destruct (isEmpty (Helpers.sanitizeString password)
            || (String.length (Helpers.sanitizeString password) <? 8)%nat);
    [intros _; eexists; reflexivity|].
  cbn. discriminate.
Qed.

Lemma register_Return_checked username email password w w' view :
  register username email password w = (w', Return view) ->
  registerInputOk username email password = true.
Proof.
  intros H. destruct (registerInputOk username email password) eqn:E;
    [reflexivity|].
  destruct (register_unchecked username email password w E) as [msg F].
  rewrite F in H. discriminate.
Qed.

(** What a successful [register] did: the email was free for the query,
    and the record of [registeredUser] was appended. *)
Lemma register_Return_inv username email password w w' view :
  register username email password w = (w', Return view) ->
  let u := registeredUser w (Helpers.sanitizeString username)
             (Helpers.sanitizeString email)
             (Helpers.sanitizeString password) in
  registerInputOk username email password = true
  /\ lookupEmail w (Helpers.sanitizeString email) = None
  /\ w' = withUsers (users w ++ [u]) (advance 3 w)
  /\ view = publicUser u.
Proof.
  intros H u. pose proof (register_Return_checked _ _ _ _ _ _ H) as Ok.
  rewrite (register_checked _ _ _ w Ok) in H. cbv zeta in H. fold u in H.
  destruct (lookupEmail w _); [discriminate|].
  destruct (negb _); [discriminate|].
  destruct (existsb _ _); [discriminate|].
  destruct (existsb _ _); [discriminate|].
  inversion H. auto.
Qed.

(** C1.  A login with the email and the password of a successful
    registration does not succeed: it is refused as bad credentials, and
    no token is issued.  The record holds the hash of the hash of the
    password, since [register] hashes it and the [pre('save')] hook
    hashes what it is given again, and the plaintext does not verify
    against that. *)
Theorem register_then_login_rejected
  (w w' : World) (username email password : JsVal) (view : JsObject) :
  register username email password w = (w', Return view) ->
  login email password w' = (w', Throw invalidCredentials).
Proof.
  intros H. apply register_Return_inv in H. cbv zeta in H.
  destruct H as (Ok & Free & W & _).
  apply registerInputOk_inv in Ok. destruct Ok as [_ Ok].
  rewrite (login_checked _ _ w' Ok), findByCredentials_spec.
  unfold lookupEmail in *. subst w'. cbn [users withUsers advance].
  rewrite find_append, Free. cbn [find].
  destruct (String.eqb _ _); [|reflexivity].
  cbn [User.password registeredUser].
  rewrite Bcrypt.compare_hash.
  replace (String.eqb _ _) with false; [reflexivity|].
  symmetry. apply String.eqb_neq. intros E.
  exact (Bcrypt.hash_not_plain _ _ (eq_sym E)).
Qed.

(** The login itself is sound: for a record whose password was hashed
    once, the login with that password succeeds, and the token it returns
    verifies, while it lasts, to the id and the email of the record. *)
Lemma login_of_single_hash_succeeds w email password u salt :
  loginInputOk email password = true ->
  lookupEmail w (Helpers.sanitizeString email) = Some u ->
  User.password u
  = Some (Bcrypt.hash (Helpers.sanitizeString password) salt) ->
  JWT_SECRET env <> EmptyString ->
  exists token,
    login email password w =
    (w, Return {| lr_message := "Login successful"; lr_token := token;
                  lr_user := publicUser u |})
    /\ ((0 < expiresIn)%Z ->
        Jwt.verify token (JWT_SECRET env) (now w / 1000)%Z
        = inl {| Jwt.userId := Some (User._id u);
                 Jwt.email := Some (User.email u) |}).
Proof.
  intros Ok L P K. eexists. split.
  - rewrite (login_checked _ _ w Ok), findByCredentials_spec, L, P.
    rewrite Bcrypt.compare_hash, String.eqb_refl. unfold jwtSign.
    pose proof K as K'. apply isEmpty_false in K'. rewrite K'. run.
    reflexivity.
  - intros T. rewrite (Jwt.verify_sign _ _ _ _ _ K).
    replace (now w / 1000 + expiresIn <=? now w / 1000)%Z with false;
      [reflexivity|].
    symmetry. apply Z.leb_gt. lia.
Qed.

(** Whatever [register] throws, the credential store is as it was. *)
Lemma register_Throw_frame username email password w w' error :
  register username email password w = (w', Throw error) ->
  users w' = users w.
Proof.
  intros H. destruct (registerInputOk username email password) eqn:Ok.
  - rewrite (register_checked _ _ _ w Ok) in H. cbv zeta in H.
    destruct (lookupEmail w _).
    + inversion H. reflexivity.
    + destruct (negb _); [inversion H; reflexivity|].
      destruct (existsb _ _); [inversion H; reflexivity|].
      destruct (existsb _ _); [inversion H; reflexivity|discriminate].
  - destruct (register_unchecked username email password w Ok) as [msg F].
    rewrite F in H. inversion H. reflexivity.
Qed.

(** The query for an email finds a record as soon as the store holds one
    with that email, provided that email is stored the way the setters
    leave it. *)
Lemma lookupEmail_stored w e u :
  In u (users w) -> User.email u = e -> User.setEmail e = e ->
  exists x, lookupEmail w e = Some x.
Proof.
  intros Hin He Hn. unfold lookupEmail.
  destruct (find _ (users w)) as [x|] eqn:F; [eauto|].
  exfalso. pose proof (find_none _ _ F u Hin) as N. cbn in N.
  unfold castEmail in N. destruct runSettersOnQuery.
  - rewrite Hn, He, String.eqb_refl in N. discriminate.
  - rewrite He, String.eqb_refl in N. discriminate.
Qed.

(** C6.  When the input checks pass and the store already holds a record
    with the sanitized email (stored lower-cased and trimmed, as the
    schema leaves every email), [register] fails with the conflict error,
    message 'User with this email already exists' and code 400, whatever
    the user name, and the world is as it was.  Beyond that, no failure
    of [register], of validation, of conflict or of the store, changes
    the credential store. *)
Theorem register_duplicate_email_conflict
  (w : World) (username email password : JsVal) (u : User.doc) :
  registerInputOk username email password = true ->
  In u (users w) ->
  User.email u = Helpers.sanitizeString email ->
  User.setEmail (User.email u) = User.email u ->
  register username email password w = (w, Throw conflict)
  /\ e_message conflict = Some "User with this email already exists"
  /\ e_code conflict = Some 400%Z
  /\ (forall username' email' password' w' error,
        register username' email' password' w = (w', Throw error) ->
        users w' = users w).
Proof.
  intros Ok Hin He Hn. repeat split.
  - rewrite (register_checked _ _ _ w Ok). cbv zeta.
    rewrite He in Hn.
    destruct (lookupEmail_stored w _ u Hin He Hn) as [x F].
    rewrite F. reflexivity.
  - intros username' email' password' w' error.
    apply register_Throw_frame.
Qed.

(** C7.  What a successful [register] returns has the five properties
    [username], [email], [id], [createdAt], [updatedAt] and no other, so
    no [password], while the record it is the view of, now in the store,
    does hold a password hash.  The email returned is the sanitized email
    lower-cased and trimmed: it has no upper-case letter and no white
    space around it. *)
Theorem register_returns_public_view
  (w w' : World) (username email password : JsVal) (view : JsObject) :
  register username email password w = (w', Return view) ->
  keys view = ["username"; "email"; "id"; "createdAt"; "updatedAt"]
  /\ field "password" view = None
  /\ (exists u h, In u (users w') /\ User.password u = Some h
                  /\ view = publicUser u)
  /\ (exists e,
        field "email" view = Some (JStr e)
        /\ e = toLowerCase (trim (Helpers.sanitizeString email))
        /\ toLowerCase e = e
        /\ trim e = e
        /\ stringAll (fun c => negb (isUpper c)) e = true).
Proof.
  intros H. apply register_Return_inv in H. cbv zeta in H.
  destruct H as (_ & _ & W & V). subst view. repeat split.
  - eexists _, _. subst w'. cbn [users withUsers]. repeat split.
    + apply in_or_app. right. left. reflexivity.
    + reflexivity.
  - exists (User.setEmail (Helpers.sanitizeString email)).
    pose proof (setEmail_normal (Helpers.sanitizeString email)) as (A & B & C).
    repeat split; assumption.
Qed.

(** ** The authorization gate *)

(** A string without the separator is one part. *)
Lemma split_one sep s :
  stringAll (fun c => negb (Ascii.eqb c sep)) s = true -> split sep s = [s].
Proof.
  induction s as [|c s IH]; [reflexivity|].
  cbn. intros H. apply andb_prop in H. destruct H as [Hc Hs].
  apply negb_true_iff in Hc. rewrite Hc, (IH Hs). reflexivity.
Qed.

(** ['Bearer ' + token] splits in two when the token has no space. *)
Lemma split_Bearer token :
  stringAll (fun c => negb (Ascii.eqb c " ")) token = true ->
  split " " ("Bearer " ++ token) = ["Bearer"; token].
Proof. intros H. cbn. rewrite (split_one " " token H). reflexivity. Qed.

Lemma oneWord_inv t :
  Jwt.oneWord t = true ->
  stringAll (fun c => negb (Ascii.eqb c " ")) t = true
  /\ (isEmpty t || isEmpty (trim t)) = false.
Proof.
  unfold Jwt.oneWord. intros H. apply andb_prop in H. destruct H as [E N].
  apply negb_true_iff in E. split.
  - clear E. induction t as [|c t IH]; [reflexivity|].
    cbn in *. apply andb_prop in N. destruct N as [Nc Nt].
    rewrite (IH Nt), andb_true_r.
    destruct (Ascii.eqb c " ") eqn:F; [|reflexivity].
    apply Ascii.eqb_eq in F. subst c. discriminate.
  - rewrite (trim_noSpace t N), E. reflexivity.
Qed.

(** A request with the header ['Bearer ' + token], for a one-word token,
    presents that token. *)
Lemma presents_Bearer req token :
  headers_authorization req = Some ("Bearer " ++ token) ->
  Jwt.oneWord token = true ->
  presents req token.
Proof.
  intros H W. exists ("Bearer " ++ token). split; [exact H|].
  apply split_Bearer. apply oneWord_inv. exact W.
Qed.

Lemma jwtVerify_world token secret w w' o :
  jwtVerify token secret w = (w', o) -> w' = w.
Proof.
  unfold jwtVerify. destruct (isEmpty secret); run.
  - intros H. inversion H. reflexivity.
  - destruct (Jwt.verify _ _ _); intros H; inversion H; reflexivity.
Qed.

(** [authenticate] on a request that presents a token. *)
Lemma authenticate_presented req token next w :
  presents req token ->
  authenticate req next w =
  if isEmpty token || isEmpty (trim token)
  then (w, Return (unauthorized "Authentication failed: Token is empty"))
  else
    match resolveUser req token w with
    | (w', Return (inl response)) => (w', Return response)
    | (w', Return (inr req')) => next req' w'
    | (w', Throw error) => (w', Return (unauthorized (caughtMessage error)))
    end.
Proof.
  intros (h & Hh & Hs). unfold authenticate. rewrite Hh.
  destruct (isEmpty h) eqn:E.
  { apply isEmpty_true in E. subst h. discriminate. }
  cbv zeta. rewrite Hs.
  cbn [List.length Nat.eqb nth negb orb String.eqb Ascii.eqb Bool.eqb].
  destruct (isEmpty token || isEmpty (trim token)); [reflexivity|].
  run. destruct (resolveUser req token w) as [w' [[response|req']|err]];
    cbn beta iota; try reflexivity.
  unfold caughtMessage.
  destruct (match e_name err with Some n => _ | None => false end);
    reflexivity.
Qed.

(** The [try] block of [authenticate] for a token that verifies. *)
Lemma resolveUser_decoded req token w decoded :
  jwtVerify token (JWT_SECRET env) w = (w, Return decoded) ->
  resolveUser req token w =
  if negb (truthyStr (Jwt.userId decoded))
  then (w, Return (inl (unauthorized
                          "Authentication failed: Invalid token payload")))
  else
    let userId :=
      Helpers.sanitizeString
        (match Jwt.userId decoded with Some s => JStr s | None => JUndefined
         end) in
    match invalidId userId w with
    | (w', Return true) =>
        (w', Return (inl (unauthorized
           "Authentication failed: Invalid userId format in token payload")))
    | (w', Return false) =>
        match lookupUser w' userId with
        | None =>
            (w', Return (inl (unauthorized
                                "Authentication failed: User not found")))
        | Some u =>
            (w', Return (inr (setUser (reqUserOf (User.project false u)) req)))
        end
    | (w', Throw error) => (w', Throw error)
    end.
Proof.
  intros V. unfold resolveUser. unfold bind at 1. rewrite V.
  destruct (negb (truthyStr (Jwt.userId decoded))); [reflexivity|].
  cbv zeta. unfold bind at 1.
  destruct (invalidId _ w) as [w' [[|]|err]]; try reflexivity.
  unfold User_findById, lookupUser. run.
  destruct (find _ (users w')); reflexivity.
Qed.



Lemma resolveUser_thrown req token w err :
  jwtVerify token (JWT_SECRET env) w = (w, Throw err) ->
  resolveUser req token w = (w, Throw err).
Proof. intros V. unfold resolveUser. unfold bind at 1. rewrite V. reflexivity. Qed.

Lemma blank_token token :
  (isEmpty token || isEmpty (trim token)) = true <-> trim token = EmptyString.
Proof.
  split.
  - intros H. apply orb_prop in H. destruct H as [H|H];
      apply isEmpty_true in H; [subst token; reflexivity|exact H].
  - intros H. rewrite H. apply orb_true_r.
Qed.

Lemma nonblank_token token :
  trim token <> EmptyString ->
  (isEmpty token || isEmpty (trim token)) = false.
Proof.
  intros H. apply not_true_is_false. intros E. apply blank_token in E.
  contradiction.
Qed.


(** A token signed with a life of zero is expired for the verifier at
    the second it was signed and ever after. *)
Lemma zero_life_token_expired claims issued token w :
  JWT_SECRET env <> EmptyString ->
  jwtSign claims (JWT_SECRET env) 0 issued = (issued, Return token) ->
  (now issued <= now w)%Z ->
  Jwt.verify token (JWT_SECRET env) (now w / 1000)%Z
  = inr Jwt.TokenExpiredError.
Proof.
  intros K S Later. unfold jwtSign in S.
  pose proof K as K'. apply isEmpty_false in K'. rewrite K' in S. run.
  inversion S as [S']. rewrite (Jwt.verify_sign _ _ _ _ _ K).
  replace (now issued / 1000 + 0 <=? now w / 1000)%Z with true;
    [reflexivity|].
  symmetry. apply Z.leb_le. rewrite Z.add_0_r. apply Z.div_le_mono; lia.
Qed.

(** C8.  A request that presents an expired token is answered 401 'Token
    Expired', and the handler does not run, whatever it is.  A token is
    expired when its verification throws [TokenExpiredError]; this is the
    case, at the second of its issue and at any later time, of a token
    signed with a life of zero. *)
Theorem expired_token_is_rejected
  (req : Request) (w : World) (next : Request -> M World Response)
  (token : string) :
  presents req token -> trim token <> EmptyString ->
  JWT_SECRET env <> EmptyString ->
  (exists err,
     Jwt.verify token (JWT_SECRET env) (now w / 1000)%Z = inr err
     /\ e_name err = Some "TokenExpiredError")
  \/ (exists claims issued,
        jwtSign claims (JWT_SECRET env) 0 issued = (issued, Return token)
        /\ (now issued <= now w)%Z) ->
  authenticate req next w =
  (w, Return (unauthorized "Authentication failed: Token Expired"))
  /\ forall next',
       authenticate req next' w = authenticate req next w.
Proof.
  intros P N K X.
  assert (Expired : exists err,
            Jwt.verify token (JWT_SECRET env) (now w / 1000)%Z = inr err
            /\ e_name err = Some "TokenExpiredError").
  { destruct X as [X|(claims & issued & S & Later)]; [exact X|].
    exists Jwt.TokenExpiredError. split; [|reflexivity].
    apply (zero_life_token_expired claims issued token w K S Later). }
  destruct Expired as (err & V & E).
  assert (A : forall n,
            authenticate req n w =
            (w, Return (unauthorized "Authentication failed: Token Expired"))).
  { intros n.
    rewrite (authenticate_presented req token n w P), (nonblank_token _ N).
    assert (J : jwtVerify token (JWT_SECRET env) w = (w, Throw err)).
    { unfold jwtVerify. apply isEmpty_false in K. rewrite K. run.
      rewrite V. reflexivity. }
    rewrite (resolveUser_thrown req token w err J). unfold caughtMessage.
    rewrite E. reflexivity. }
  split; [apply A|]. intros next'. rewrite !A. reflexivity.
Qed.

(* ===================================================================== *)
(** * Further properties *)
(* ===================================================================== *)

(** ** The regular expressions, by what they match *)

Import RegexSemantics.

Lemma append_empty_inv (s t : string) :
  (s ++ t)%string = EmptyString -> s = EmptyString /\ t = EmptyString.
Proof. destruct s; cbn; [auto|discriminate]. Qed.

Lemma append_empty_r (s : string) : (s ++ EmptyString)%string = s.
Proof. induction s as [|c s IH]; cbn; [reflexivity|rewrite IH; reflexivity]. Qed.

Lemma matches_nullable r : nullable r = true <-> matches r EmptyString.
Proof.
  split.
  - induction r as [| |p|a IHa b IHb|a IHa b IHb|a IHa]; cbn; intros H;
      try discriminate.
    + constructor.
    + apply andb_prop in H. destruct H as [Ha Hb].
      change EmptyString with (EmptyString ++ EmptyString)%string.
      constructor; auto.
    + apply orb_prop in H. destruct H as [H|H];
        [apply MAltL | apply MAltR]; auto.
    + constructor.
  - intros H. remember EmptyString as s eqn:E.
    induction H as [|p c Hc|a b s t Ha IHa Hb IHb|a b s Ha IHa|a b s Hb IHb
                   |a|a s t Ha IHa Hs IHs]; cbn; try reflexivity.
    + discriminate.
    + apply append_empty_inv in E. destruct E as [Es Et].
      rewrite (IHa Es), (IHb Et). reflexivity.
    + rewrite (IHa E). reflexivity.
    + rewrite (IHb E). apply orb_true_r.
Qed.

Lemma matches_deriv_sound c r :
  forall s, matches (deriv c r) s -> matches r (String c s).
Proof.
  induction r as [| |p|a IHa b IHb|a IHa b IHb|a IHa]; cbn; intros s H.
  - inversion H.
  - inversion H.
  - destruct (p c) eqn:E; inversion H; subst. constructor. exact E.
  - destruct (nullable a) eqn:N.
    + inversion H as [| |? ? ? ? ? ?| ? ? ? H1 | ? ? ? H1| |]; subst.
      * inversion H1 as [| |? ? s1 s2 Hs1 Hs2| | | |]; subst.
        change (String c (s1 ++ s2)) with (String c s1 ++ s2)%string.
        constructor; auto.
      * change (String c s) with (EmptyString ++ String c s)%string.
        constructor; [apply matches_nullable; exact N | auto].
    + inversion H as [| |? ? s1 s2 Hs1 Hs2| | | |]; subst.
      change (String c (s1 ++ s2)) with (String c s1 ++ s2)%string.
      constructor; auto.
  - inversion H; subst; [apply MAltL | apply MAltR]; auto.
  - inversion H as [| |? ? s1 s2 Hs1 Hs2| | | |]; subst.
    change (String c (s1 ++ s2)) with (String c s1 ++ s2)%string.
    constructor; auto.
Qed.

Lemma matches_deriv_complete c r x :
  matches r x -> forall s, x = String c s -> matches (deriv c r) s.
Proof.
  intros H.
  induction H as [|p c' Hc|a b s1 t Ha IHa Hb IHb|a b s1 Ha IHa|a b s1 Hb IHb
                 |a|a s1 t Ha IHa Hs IHs]; intros s E; cbn.
  - discriminate.
  - inversion E; subst. rewrite Hc. constructor.
  - destruct s1 as [|c1 s1'].
    + cbn in E. subst t. apply matches_nullable in Ha. rewrite Ha.
      apply MAltR. apply IHb. reflexivity.
    + cbn in E. inversion E; subst.
      destruct (nullable a); [apply MAltL|]; constructor; auto.
  - apply MAltL. auto.
  - apply MAltR. auto.
  - discriminate.
  - destruct s1 as [|c1 s1'].
    + cbn in E. apply IHs. exact E.
    + cbn in E. inversion E; subst. constructor; auto.
Qed.

(** The matcher decides the language of the expression. *)
Lemma test_matches s : forall r, test r s = true <-> matches r s.
Proof.
  induction s as [|c s IH]; intros r; cbn.
  - apply matches_nullable.
  - rewrite IH. split.
    + apply matches_deriv_sound.
    + intros H. apply (matches_deriv_complete c r _ H). reflexivity.
Qed.

Lemma matches_seq a b s :
  matches (Seq a b) s <->
  exists s1 s2, s = (s1 ++ s2)%string /\ matches a s1 /\ matches b s2.
Proof.
  split.
  - intros H. inversion H; subst. eauto.
  - intros (s1 & s2 & E & Ha & Hb). subst s. constructor; assumption.
Qed.

Lemma matches_class p s :
  matches (Class p) s <-> exists c, s = String c EmptyString /\ p c = true.
Proof.
  split.
  - intros H. inversion H; subst. eauto.
  - intros (c & E & H). subst s. constructor. exact H.
Qed.

Lemma matches_star_class p s :
  matches (Star (Class p)) s <-> stringAll p s = true.
Proof.
  split.
  - intros H. remember (Star (Class p)) as r eqn:E.
    induction H as [|p' c Hc|a b s t Ha IHa Hb IHb|a b s Ha IHa|a b s Hb IHb
                   |a|a s t Ha IHa Hs IHs]; try discriminate.
    + reflexivity.
    + inversion E; subst a. inversion Ha; subst. cbn.
      rewrite H0. apply IHs. reflexivity.
  - induction s as [|c s IH]; cbn; intros H; [constructor|].
    apply andb_prop in H. destruct H as [Hc Hs].
    change (String c s) with (String c EmptyString ++ s)%string.
    constructor; [constructor; exact Hc | auto].
Qed.

Lemma matches_plus_class p s :
  matches (Plus (Class p)) s <->
  s <> EmptyString /\ stringAll p s = true.
Proof.
  unfold Plus. rewrite matches_seq. split.
  - intros (s1 & s2 & E & H1 & H2). apply matches_class in H1.
    destruct H1 as (c & E1 & Hc). subst. apply matches_star_class in H2.
    cbn. rewrite Hc, H2. split; [discriminate|reflexivity].
  - intros [N H]. destruct s as [|c s]; [contradiction|].
    cbn in H. apply andb_prop in H. destruct H as [Hc Hs].
    exists (String c EmptyString), s. split; [reflexivity|].
    split; [constructor; exact Hc | apply matches_star_class; exact Hs].
Qed.

Lemma matches_lit c s : matches (Lit c) s <-> s = String c EmptyString.
Proof.
  unfold Lit. rewrite matches_class. split.
  - intros (c' & E & H). apply Ascii.eqb_eq in H. subst. reflexivity.
  - intros E. exists c. split; [exact E | apply Ascii.eqb_refl].
Qed.

(** ** src/utils/helpers.js *)

Lemma stringAll_append p (s t : string) :
  stringAll p (s ++ t)%string = stringAll p s && stringAll p t.
Proof.
  induction s as [|c s IH]; cbn; [reflexivity|].
  rewrite IH. apply andb_assoc.
Qed.

Lemma stringAll_impl (p q : ascii -> bool) s :
  (forall c, p c = true -> q c = true) ->
  stringAll p s = true -> stringAll q s = true.
Proof.
  intros I. induction s as [|c s IH]; cbn; [reflexivity|].
  intros H. apply andb_prop in H. destruct H as [Hc Hs].
  rewrite (I c Hc), (IH Hs). reflexivity.
Qed.

Lemma emailAtom_noSpace c :
  Helpers.emailAtom c = true -> negb (isSpace c) = true.
Proof. intros H. apply andb_prop in H. exact (proj2 H). Qed.

(** X1.  [isValidEmail] accepts exactly the strings [local@name.rest]
    whose three parts are not empty and hold neither an ['@'] nor white
    space (the last two may hold dots); it refuses whatever is not a
    string. *)
Theorem isValidEmail_shape (s : string) :
  (Helpers.isValidEmail (JStr s) = true <->
   exists l a b,
     s = (l ++ "@" ++ a ++ "." ++ b)%string
     /\ emailPart l /\ emailPart a /\ emailPart b)
  /\ Helpers.isValidEmail JUndefined = false
  /\ Helpers.isValidEmail JNull = false
  /\ (forall n, Helpers.isValidEmail (JNum n) = false)
  /\ (forall b, Helpers.isValidEmail (JBool b) = false).
Proof.
  split; [|repeat split].
  split.
  - cbn. destruct (isEmpty (trim s)); [discriminate|].
    intros H. apply test_matches in H. unfold Helpers.emailRegex in H.
    apply matches_seq in H. destruct H as (l & r1 & E1 & Hl & H).
    apply matches_seq in H. destruct H as (at_ & r2 & E2 & Hat & H).
    apply matches_seq in H. destruct H as (a & r3 & E3 & Ha & H).
    apply matches_seq in H. destruct H as (dot & b & E4 & Hdot & Hb).
    apply matches_lit in Hat, Hdot. apply matches_plus_class in Hl, Ha, Hb.
    destruct Hl as [Nl Hl], Ha as [Na Ha], Hb as [Nb Hb].
    subst. exists l, a, b. repeat split; assumption.
  - intros (l & a & b & E & [Nl Hl] & [Na Ha] & [Nb Hb]).
    assert (M : test Helpers.emailRegex s = true).
    { apply test_matches. unfold Helpers.emailRegex. subst s.
      constructor; [apply matches_plus_class; split; assumption|].
      change ("@" ++ a ++ "." ++ b)%string
        with (String "@" EmptyString ++ (a ++ "." ++ b))%string.
      constructor; [apply matches_lit; reflexivity|].
      constructor; [apply matches_plus_class; split; assumption|].
      change ("." ++ b)%string with (String "." EmptyString ++ b)%string.
      constructor; [apply matches_lit; reflexivity|].
      apply matches_plus_class; split; assumption. }
    cbn. rewrite M.
    assert (N : stringAll (fun c => negb (isSpace c)) s = true).
    { subst s. rewrite !stringAll_append. cbn.
      rewrite (stringAll_impl _ _ l emailAtom_noSpace Hl),
        (stringAll_impl _ _ a emailAtom_noSpace Ha),
        (stringAll_impl _ _ b emailAtom_noSpace Hb). reflexivity. }
    rewrite (trim_noSpace s N).
    destruct s; [|reflexivity]. destruct l; [contradiction|discriminate].
Qed.

Lemma stripTagsFrom_clean b s :
  stringAll (fun c => negb (Ascii.eqb c "<")) (stripTagsFrom b s) = true.
Proof.
  revert b. induction s as [|c s IH]; intros b; cbn; [reflexivity|].
  destruct b.
  - destruct (Ascii.eqb c ">"); apply IH.
  - destruct (Ascii.eqb c "<") eqn:E; [apply IH|].
    cbn. rewrite E. apply IH.
Qed.

Lemma stripTags_plain s :
  stringAll (fun c => negb (Ascii.eqb c "<")) s = true -> stripTags s = s.
Proof.
  unfold stripTags. induction s as [|c s IH]; cbn; [reflexivity|].
  intros H. apply andb_prop in H. destruct H as [Hc Hs].
  apply negb_true_iff in Hc. rewrite Hc, (IH Hs). reflexivity.
Qed.

Lemma stripTagsFrom_length b s :
  String.length (stripTagsFrom b s) <= String.length s.
Proof.
  revert b. induction s as [|c s IH]; intros b; cbn; [lia|].
  destruct b.
  - destruct (Ascii.eqb c ">"); [specialize (IH false)|specialize (IH true)];
      lia.
  - destruct (Ascii.eqb c "<"); [specialize (IH true)|specialize (IH false)];
      cbn; lia.
Qed.

Lemma trimStart_length s : String.length (trimStart s) <= String.length s.
Proof.
  induction s as [|c s IH]; cbn; [lia|]. destruct (isSpace c); cbn; lia.
Qed.

Lemma trimEnd_length s : String.length (trimEnd s) <= String.length s.
Proof.
  induction s as [|c s IH]; cbn; [lia|].
  destruct (isSpace c && isEmpty (trimEnd s)); cbn; lia.
Qed.

(** X2.  Whatever it is given, [sanitizeString] returns a string without
    any ['<'], no longer than the input; a string that has no ['<'] is
    only trimmed; what is not a string gives ['']. *)
Theorem sanitizeString_leaves_no_tag_opener (v : JsVal) :
  stringAll (fun c => negb (Ascii.eqb c "<")) (Helpers.sanitizeString v)
  = true
  /\ (forall s, v = JStr s ->
        String.length (Helpers.sanitizeString v) <= String.length s
        /\ (stringAll (fun c => negb (Ascii.eqb c "<")) s = true ->
            Helpers.sanitizeString v = trim s))
  /\ ((forall s, v <> JStr s) -> Helpers.sanitizeString v = EmptyString).
Proof.
  split; [|split].
  - destruct v; try reflexivity. apply stripTagsFrom_clean.
  - intros s E. subst v. cbn. split.
    + pose proof (stripTagsFrom_length false (trim s)).
      pose proof (trimEnd_length (trimStart s)).
      pose proof (trimStart_length s). unfold stripTags, trim in *. lia.
    + intros H. apply stripTags_plain.
      assert (T : forall t, stringAll (fun c => negb (Ascii.eqb c "<")) t
                            = true ->
                            stringAll (fun c => negb (Ascii.eqb c "<"))
                              (trimEnd t) = true).
      { induction t as [|c t IH]; cbn; [reflexivity|].
        intros Ht. apply andb_prop in Ht. destruct Ht as [Hc Ht].
        destruct (isSpace c && isEmpty (trimEnd t)); [reflexivity|].
        cbn. rewrite Hc, (IH Ht). reflexivity. }
      apply T. clear T. induction s as [|c s IH]; cbn; [reflexivity|].
      cbn in H. apply andb_prop in H. destruct H as [Hc Hs].
      destruct (isSpace c); [auto|]. cbn. rewrite Hc, Hs. reflexivity.
  - intros N. destruct v; try reflexivity. exfalso. exact (N s eq_refl).
Qed.

Lemma substring_prefix_length n s :
  n <= String.length s -> String.length (substring 0 n s) = n.
Proof.
  revert s. induction n as [|n IH]; intros s H.
  - destruct s; reflexivity.
  - destruct s as [|c s]; [cbn in H; lia|]. cbn. rewrite IH; [reflexivity|].
    cbn in H. lia.
Qed.

Lemma substring_prefix n s : prefix (substring 0 n s) s = true.
Proof.
  revert s. induction n as [|n IH]; intros s.
  - destruct s; reflexivity.
  - destruct s as [|c s]; [reflexivity|]. cbn.
    destruct (ascii_dec c c); [apply IH|contradiction].
Qed.

Lemma append_length (s t : string) :
  String.length (s ++ t)%string = String.length s + String.length t.
Proof. induction s as [|c s IH]; cbn; [reflexivity|rewrite IH; reflexivity]. Qed.

(** X3.  For a limit [n] of 1 or more, [truncateString] returns a string
    of at most [n] characters as it is, and cuts a longer one to its
    first [n] characters followed by ['...']: the result then has [n + 3]
    characters, three more than the limit. *)
Theorem truncateString_spec (s : string) (n : Z) :
  (1 <= n)%Z ->
  ((Z.of_nat (String.length s) <= n)%Z ->
   Helpers.truncateString (JStr s) (JNum n) = s)
  /\ ((n < Z.of_nat (String.length s))%Z ->
      exists p,
        Helpers.truncateString (JStr s) (JNum n) = (p ++ "...")%string
        /\ prefix p s = true
        /\ String.length p = Z.to_nat n
        /\ String.length (Helpers.truncateString (JStr s) (JNum n))
           = Z.to_nat n + 3).
Proof.
  intros N. unfold Helpers.truncateString.
  replace (n <? 1)%Z with false by (symmetry; apply Z.ltb_ge; lia).
  split; intros H.
  - replace (Z.of_nat (String.length s) <=? n)%Z with true
      by (symmetry; apply Z.leb_le; lia).
    reflexivity.
  - replace (Z.of_nat (String.length s) <=? n)%Z with false
      by (symmetry; apply Z.leb_gt; lia).
    exists (substring 0 (Z.to_nat n) s).
    assert (L : String.length (substring 0 (Z.to_nat n) s) = Z.to_nat n)
      by (apply substring_prefix_length; lia).
    repeat split.
    + apply substring_prefix.
    + exact L.
    + rewrite append_length, L. reflexivity.
Qed.

(** ** The schema of api/models/User.js *)

(** X4.  The schema accepts a user name exactly when it has 3 to 50
    characters, all of them letters, digits or underscores. *)
Theorem validUsername_shape (v : string) :
  User.validUsername v = true <->
  3 <= String.length v <= 50 /\ stringAll User.isWordChar v = true.
Proof.
  unfold User.validUsername, User.usernameRegex. split.
  - intros H. apply andb_prop in H. destruct H as [H T].
    apply andb_prop in H. destruct H as [H Hi].
    apply andb_prop in H. destruct H as [_ Lo].
    apply Nat.leb_le in Lo, Hi. apply test_matches in T.
    apply matches_plus_class in T. split; [lia | exact (proj2 T)].
  - intros [[Lo Hi] A].
    assert (N : v <> EmptyString) by (intros E; subst v; cbn in Lo; lia).
    apply isEmpty_false in N. rewrite N. cbn [negb andb].
    apply Nat.leb_le in Lo, Hi. rewrite Lo, Hi. cbn [andb].
    apply test_matches. apply matches_plus_class.
    split; [apply isEmpty_false; exact N | exact A].
Qed.

Lemma test_email_noSpace s :
  test Helpers.emailRegex s = true ->
  stringAll (fun c => negb (isSpace c)) s = true.
Proof.
  apply within_test. unfold Helpers.emailRegex, Plus, Lit. cbn [within].
  assert (L : forall a c, isSpace a = false -> Ascii.eqb a c = true ->
                          negb (isSpace c) = true).
  { intros a c Ha H. apply Ascii.eqb_eq in H. subst c. rewrite Ha.
    reflexivity. }
  repeat split; try exact emailAtom_noSpace; intros c; apply L; reflexivity.
Qed.

Lemma stringMap_id s : stringMap (fun c => c) s = s.
Proof. induction s as [|c s IH]; cbn; [reflexivity|rewrite IH; reflexivity]. Qed.

Lemma emailAtom_agree c : User.emailAtom c = Helpers.emailAtom c.
Proof. unfold User.emailAtom, Helpers.emailAtom. apply andb_comm. Qed.

(** X5.  The email validator of the schema and [isValidEmail] accept the
    same strings, and an email that [isValidEmail] accepts still passes
    the validator once the setters have lower-cased and trimmed it: the
    schema never refuses an email that the services let through. *)
Theorem email_validators_agree (s : string) :
  User.validEmail s = Helpers.isValidEmail (JStr s)
  /\ (Helpers.isValidEmail (JStr s) = true ->
      User.validEmail (User.setEmail s) = true).
Proof.
  split; [|intros H; exact (proj2 (schema_accepts_valid_email s H))].
  assert (R : test User.emailRegex s = test Helpers.emailRegex s).
  { rewrite <- (stringMap_id s) at 1. apply related_test.
    unfold Helpers.emailRegex, User.emailRegex, Plus, Lit. cbn [related].
    repeat split; intros c; try apply emailAtom_agree; reflexivity. }
  unfold User.validEmail. cbn. rewrite R.
  destruct (test Helpers.emailRegex s) eqn:T.
  - pose proof (test_email_noSpace s T) as N.
    rewrite (trim_noSpace s N). destruct s; [discriminate|reflexivity].
  - rewrite andb_false_r. destruct (isEmpty (trim s)); reflexivity.
Qed.

(** ** [generateRandomString] *)

Lemma hexChar_isLowerHex d : d < 16 -> isLowerHex (hexChar d) = true.
Proof.
  intros H. do 16 (destruct d as [|d]; [reflexivity|]). lia.
Qed.

Lemma toHex_length bytes : String.length (toHex bytes) = 2 * List.length bytes.
Proof. induction bytes as [|b r IH]; cbn; [reflexivity|rewrite IH; lia]. Qed.

Lemma toHex_isLowerHex bytes : stringAll isLowerHex (toHex bytes) = true.
Proof.
  induction bytes as [|b r IH]; [reflexivity|].
  cbn [toHex stringAll]. pose proof (Byte.to_nat_bounded b) as B.
  rewrite !hexChar_isLowerHex, IH; [reflexivity| |].
  - apply Nat.mod_upper_bound. lia.
  - apply Nat.Div0.div_lt_upper_bound. lia.
Qed.

Lemma stringAll_substring p n s :
  stringAll p s = true -> stringAll p (substring 0 n s) = true.
Proof.
  revert s. induction n as [|n IH]; intros s H.
  - destruct s; reflexivity.
  - destruct s as [|c s]; [reflexivity|]. cbn in *.
    apply andb_prop in H. destruct H as [Hc Hs].
    rewrite Hc, (IH s Hs). reflexivity.
Qed.

(** X6.  Asked for [n] characters, [n] being 1 or more,
    [generateRandomString] returns exactly [n] characters, each a digit
    of lower-case hexadecimal, and draws entropy once.  It returns ['']
    for [null] and [undefined], and throws for a number below 1. *)
Theorem generateRandomString_length (n : Z) (w : World) :
  ((1 <= n)%Z ->
   exists s,
     generateRandomString (JNum n) w = (advance 1 w, Return s)
     /\ String.length s = Z.to_nat n
     /\ stringAll isLowerHex s = true)
  /\ ((n < 1)%Z ->
      exists err, generateRandomString (JNum n) w = (w, Throw err))
  /\ generateRandomString JNull w = (w, Return EmptyString)
  /\ generateRandomString JUndefined w = (w, Return EmptyString).
Proof.
  split; [|split; [|split; reflexivity]].
  - intros N. unfold generateRandomString.
    replace (n <? 1)%Z with false by (symmetry; apply Z.ltb_ge; lia).
    run. eexists. split; [reflexivity|]. split.
    + apply substring_prefix_length.
      rewrite toHex_length, Crypto.randomBytes_length.
      assert (n <= 2 * ((n + 1) / 2))%Z.
      { pose proof (Z.div_mod (n + 1) 2 ltac:(lia)).
        pose proof (Z.mod_pos_bound (n + 1) 2 ltac:(lia)). lia. }
      lia.
    + apply stringAll_substring, toHex_isLowerHex.
  - intros N. unfold generateRandomString.
    replace (n <? 1)%Z with true by (symmetry; apply Z.ltb_lt; lia).
    eexists. reflexivity.
Qed.

(** ** [login] and [verifyToken] *)

Lemma login_unchecked email password w :
  loginInputOk email password = false ->
  exists msg,
    login email password w = (w, Throw (apiError msg 400 "Bad Request")).
Proof.
  unfold loginInputOk, login. cbv zeta.
  destruct (isEmpty (Helpers.sanitizeString email)
            || isEmpty (trim (Helpers.sanitizeString email)));
    [intros _; eexists; reflexivity|].
  destruct (Helpers.isValidEmail (JStr (Helpers.sanitizeString email)));
    [|intros _; eexists; reflexivity].
  destruct (isEmpty (Helpers.sanitizeString password)
            || (String.length (Helpers.sanitizeString password) <? 8)%nat);
    [intros _; eexists; reflexivity|].
  cbn. discriminate.
Qed.

Lemma jwtSign_cases payload secret ttl w :
  jwtSign payload secret ttl w =
  if isEmpty secret
  then (w, Throw (mkError (Some "Error")
                    (Some "secretOrPrivateKey must have a value") None None))
  else (w, Return (Jwt.sign payload secret (now w / 1000)%Z ttl)).
Proof. unfold jwtSign. destruct (isEmpty secret); reflexivity. Qed.

Lemma lookupEmail_found w e u :
  lookupEmail w e = Some u ->
  In u (users w) /\ User.email u = castEmail e.
Proof.
  unfold lookupEmail. intros H. apply find_some in H. destruct H as [I E].
  apply String.eqb_eq in E. split; assumption.
Qed.

(** What [login] does for any inputs: the world is as before, and the
    outcome is one of a few. *)
Lemma login_cases email password w :
  (exists msg,
     loginInputOk email password = false
     /\ login email password w = (w, Throw (apiError msg 400 "Bad Request")))
  \/ login email password w = (w, Throw invalidCredentials)
  \/ (exists msg,
        login email password w =
        (w, Throw (mkError None (Some msg) (Some 500%Z)
                     (Some "Internal Server Error"))))
  \/ (exists u h,
        lookupEmail w (Helpers.sanitizeString email) = Some u
        /\ User.password u = Some h
        /\ Bcrypt.compare (Helpers.sanitizeString password) h = true
        /\ JWT_SECRET env <> EmptyString
        /\ login email password w =
           (w, Return {| lr_message := "Login successful";
                         lr_token :=
                           Jwt.sign {| Jwt.userId := Some (User._id u);
                                       Jwt.email := Some (User.email u) |}
                             (JWT_SECRET env) (now w / 1000)%Z expiresIn;
                         lr_user := publicUser u |})).
Proof.
  destruct (loginInputOk email password) eqn:Ok.
  - right. rewrite (login_checked _ _ w Ok), findByCredentials_spec.
    destruct (lookupEmail w _) as [u|] eqn:L; [|left; reflexivity].
    destruct (User.password u) as [h|] eqn:P.
    + destruct (Bcrypt.compare _ h) eqn:C; [|left; reflexivity].
      rewrite jwtSign_cases.
      destruct (isEmpty (JWT_SECRET env)) eqn:S.
      * right. left. eexists. reflexivity.
      * right. right. exists u, h. repeat split; try assumption.
        apply isEmpty_false. exact S.
    + right. left. eexists. reflexivity.
  - left. destruct (login_unchecked _ _ w Ok) as [msg E].
    exists msg. split; [reflexivity|exact E].
Qed.

(** X7.  A login that succeeds names a stored record: its email is the
    one the query was made with, its stored hash verifies against the
    sanitized password, the token is signed over its id and email at the
    current second for the configured life, and the user object returned
    is its public view, which has no [password] key.  [login] never
    changes the store, whatever the outcome. *)
Theorem login_sound (email password : JsVal) (w w' : World)
  (r : LoginResult) :
  login email password w = (w', Return r) ->
  w' = w
  /\ loginInputOk email password = true
  /\ exists u h,
       In u (users w)
       /\ User.email u = castEmail (Helpers.sanitizeString email)
       /\ User.password u = Some h
       /\ Bcrypt.compare (Helpers.sanitizeString password) h = true
       /\ lr_token r =
          Jwt.sign {| Jwt.userId := Some (User._id u);
                      Jwt.email := Some (User.email u) |}
            (JWT_SECRET env) (now w / 1000)%Z expiresIn
       /\ lr_user r = publicUser u
       /\ field "password" (lr_user r) = None.
Proof.
  intros H.
  destruct (login_cases email password w)
    as [(msg & _ & E)|[E|[(msg & E)|(u & h & L & P & C & S & E)]]];
    rewrite E in H; try discriminate.
  inversion H; subst w' r; clear H. split; [reflexivity|]. split.
  - destruct (loginInputOk email password) eqn:Ok; [reflexivity|].
    destruct (login_unchecked _ _ w Ok) as [msg F]. rewrite F in E.
    discriminate.
  - exists u, h. apply lookupEmail_found in L. destruct L as [I M].
    repeat split; try assumption.
Qed.

Lemma jwtVerify_cases token secret w :
  jwtVerify token secret w =
  if isEmpty secret
  then (w, Throw (Jwt.JsonWebTokenError
                    "secret or public key must be provided"))
  else match Jwt.verify token secret (now w / 1000)%Z with
       | inl decoded => (w, Return decoded)
       | inr error => (w, Throw error)
       end.
Proof.
  unfold jwtVerify. destruct (isEmpty secret); [reflexivity|]. run.
  destruct (Jwt.verify _ _ _); reflexivity.
Qed.

(** X9.  [verifyToken] leaves the world as it was and either returns the
    claims the library decodes from the token at the current second, or
    throws a value with a message, a code and a status text: 400 for an
    empty token, 401 for every failure of the verification. *)
Theorem verifyToken_answers (token : string) (w : World) :
  (token = EmptyString
   /\ verifyToken token w =
      (w, Throw (apiError "JWT token is missing" 400 "Bad Request")))
  \/ (exists msg,
        token <> EmptyString
        /\ verifyToken token w =
           (w, Throw (apiError msg 401 "Unauthorized")))
  \/ (exists decoded,
        token <> EmptyString
        /\ Jwt.verify token (JWT_SECRET env) (now w / 1000)%Z = inl decoded
        /\ verifyToken token w = (w, Return decoded)).
Proof.
  unfold verifyToken. destruct token as [|c t]; [left; split; reflexivity|].
  right. cbn [isEmpty]. unfold tryCatch. rewrite jwtVerify_cases.
  destruct (isEmpty (JWT_SECRET env)).
  - left. eexists. split; [discriminate|reflexivity].
  - destruct (Jwt.verify _ _ _) as [decoded|error] eqn:V.
    + right. exists decoded. repeat split; [discriminate].
    + left. eexists. split; [discriminate|reflexivity].
Qed.

(** X10.  The token of a successful login stays good for the configured
    life and no longer: in any later world, [verifyToken] returns the id
    and the email of the record that logged in while the clock, in
    seconds, is before the second of issue plus the life, and throws 401
    'jwt expired' from then on. *)
Theorem login_token_verifies_until_expiry (email password : JsVal)
  (w w' w2 : World) (r : LoginResult) :
  login email password w = (w', Return r) ->
  exists u,
    In u (users w)
    /\ lr_user r = publicUser u
    /\ ((now w2 / 1000 < now w / 1000 + expiresIn)%Z ->
        verifyToken (lr_token r) w2 =
        (w2, Return {| Jwt.userId := Some (User._id u);
                       Jwt.email := Some (User.email u) |}))
    /\ ((now w / 1000 + expiresIn <= now w2 / 1000)%Z ->
        verifyToken (lr_token r) w2 =
        (w2, Throw (apiError "jwt expired" 401 "Unauthorized"))).
Proof.
  intros H.
  destruct (login_cases email password w)
    as [(msg & _ & E)|[E|[(msg & E)|(u & h & L & P & C & S & E)]]];
    rewrite E in H; try discriminate.
  inversion H; subst w' r; clear H. cbn [lr_token lr_user].
  exists u. apply lookupEmail_found in L. destruct L as [I _].
  split; [exact I|]. split; [reflexivity|].
  pose proof (Jwt.sign_oneWord
                {| Jwt.userId := Some (User._id u);
                   Jwt.email := Some (User.email u) |}
                (JWT_SECRET env) (now w / 1000)%Z expiresIn) as W.
  apply oneWord_inv in W.
  assert (N : isEmpty (Jwt.sign {| Jwt.userId := Some (User._id u);
                                   Jwt.email := Some (User.email u) |}
                         (JWT_SECRET env) (now w / 1000)%Z expiresIn)
              = false).
  { destruct W as [_ W]. apply orb_false_elim in W. apply (proj1 W). }
  pose proof S as S'. apply isEmpty_false in S'.
  split; intros T; unfold verifyToken; rewrite N; unfold tryCatch;
    rewrite jwtVerify_cases, S', Jwt.verify_sign by exact S.
  - replace (_ <=? _)%Z with false by (symmetry; apply Z.leb_gt; lia).
    reflexivity.
  - replace (_ <=? _)%Z with true by (symmetry; apply Z.leb_le; lia).
    reflexivity.
Qed.

(** ** [register]: what it keeps and how it fails *)

Lemma existsb_false_not_in {A : Type} (f : A -> string) (l : list A) x :
  existsb (fun y => String.eqb (f y) x) l = false -> ~ In x (map f l).
Proof.
  intros H I. apply in_map_iff in I. destruct I as (y & E & I).
  assert (T : existsb (fun y => String.eqb (f y) x) l = true).
  { apply existsb_exists. exists y. split; [exact I|].
    apply String.eqb_eq. exact E. }
  rewrite T in H. discriminate.
Qed.

Lemma NoDup_snoc {A : Type} (l : list A) x :
  NoDup l -> ~ In x l -> NoDup (l ++ [x]).
Proof.
  intros N I. induction N as [|a l Ia N IH]; cbn.
  - constructor; [intros []|constructor].
  - constructor.
    + intros J. apply in_app_or in J. destruct J as [J|[J|[]]].
      * exact (Ia J).
      * apply I. left. symmetry. exact J.
    + apply IH. intros J. apply I. right. exact J.
Qed.

Lemma setEmail_idem e : User.setEmail (User.setEmail e) = User.setEmail e.
Proof.
  destruct (setEmail_normal e) as (L & T & _).
  unfold User.setEmail at 1. rewrite T. exact L.
Qed.

(** X11.  [register] keeps the user collection well formed, whatever its
    inputs and its outcome: emails and user names stay unique, every
    record passes the schema on its user name and email, and emails are
    held in lower case and trimmed.  It adds at most one record at the
    end and changes no record, no goal and not the clock. *)
Theorem register_keeps_users_well_formed
  (username email password : JsVal) (w w' : World) (o : Outcome JsObject) :
  usersOk (users w) ->
  register username email password w = (w', o) ->
  usersOk (users w')
  /\ (users w' = users w \/ exists u, users w' = (users w ++ [u])%list)
  /\ goals w' = goals w
  /\ now w' = now w.
Proof.
  intros (NE & NU & F) H.
  assert (Same : forall v : World,
             users v = users w -> goals v = goals w -> now v = now w ->
             usersOk (users v)
             /\ (users v = users w
                 \/ exists u, users v = (users w ++ [u])%list)
             /\ goals v = goals w /\ now v = now w).
  { intros v -> G N. split; [exact (conj NE (conj NU F))|].
    split; [left; reflexivity|]. split; assumption. }
  destruct (registerInputOk username email password) eqn:Ok.
  - rewrite (register_checked _ _ _ w Ok) in H. cbv zeta in H.
    remember (registeredUser w (Helpers.sanitizeString username)
                (Helpers.sanitizeString email)
                (Helpers.sanitizeString password)) as u eqn:Eu.
    destruct (lookupEmail w _);
      [inversion H; subst w' o; apply Same; reflexivity|].
    destruct (User.validUsername (User.username u)
              && User.validEmail (User.email u)) eqn:V; cbn [negb] in H;
      [|inversion H; subst w' o; apply Same; reflexivity].
    destruct (existsb (fun x => String.eqb (User.username x)
                                  (User.username u)) (users w)) eqn:XU;
      [inversion H; subst w' o; apply Same; reflexivity|].
    destruct (existsb (fun x => String.eqb (User.email x) (User.email u))
                (users w)) eqn:XE;
      [inversion H; subst w' o; apply Same; reflexivity|].
    inversion H; subst w' o; clear H.
    cbn [users goals now withUsers advance].
    apply andb_prop in V. destruct V as [VU VE].
    split; [|split; [right; exists u; reflexivity|split; reflexivity]].
    unfold usersOk. split; [|split].
    + rewrite map_app. cbn [map]. apply NoDup_snoc; [exact NE|].
      apply existsb_false_not_in. exact XE.
    + rewrite map_app. cbn [map]. apply NoDup_snoc; [exact NU|].
      apply existsb_false_not_in. exact XU.
    + apply Forall_app. split; [exact F|]. constructor; [|constructor].
      repeat split; try assumption.
      * rewrite Eu. unfold registeredUser. cbn [User.email].
        apply setEmail_idem.
      * rewrite Eu. unfold registeredUser. cbn [User.password].
        discriminate.
  - destruct (register_unchecked _ _ _ w Ok) as [msg E]. rewrite E in H.
    inversion H; subst w' o. apply Same; reflexivity.
Qed.

(** X12.  [register] does not check the shape of the user name: when the
    other inputs pass and the email is free, a user name that the schema
    refuses (shorter than 3 or longer than 50 characters once trimmed,
    or with a character that is not a letter, a digit or an underscore)
    is answered with code 500 'Internal Server Error', not with a 400,
    and nothing is stored. *)
Theorem register_invalid_username_is_500
  (username email password : JsVal) (w : World) :
  registerInputOk username email password = true ->
  lookupEmail w (Helpers.sanitizeString email) = None ->
  User.validUsername (User.setUsername (Helpers.sanitizeString username))
  = false ->
  exists w' msg,
    register username email password w =
    (w', Throw (apiError msg 500 "Internal Server Error"))
    /\ users w' = users w /\ goals w' = goals w.
Proof.
  intros Ok Free Bad.
  rewrite (register_checked _ _ _ w Ok). cbv zeta. rewrite Free.
  unfold registeredUser at 1 2. cbn [User.username User.email].
  rewrite Bad. cbn [andb negb].
  eexists. eexists. split; [reflexivity|]. split; reflexivity.
Qed.

(** X13.  A user name that another account holds is not answered as a
    conflict: when the inputs pass, the email is free and the schema
    accepts the user name, [register] throws the error of the store
    driver as it is, with code 11000 and no status text, and nothing is
    stored. *)
Theorem register_taken_username_throws_driver_error
  (username email password : JsVal) (w : World) (other : User.doc) :
  registerInputOk username email password = true ->
  lookupEmail w (Helpers.sanitizeString email) = None ->
  User.validUsername (User.setUsername (Helpers.sanitizeString username))
  = true ->
  In other (users w) ->
  User.username other
  = User.setUsername (Helpers.sanitizeString username) ->
  exists w',
    register username email password w =
    (w', Throw (DuplicateKeyError "username_1"))
    /\ users w' = users w /\ goals w' = goals w
    /\ e_code (DuplicateKeyError "username_1") = Some 11000%Z
    /\ e_statusText (DuplicateKeyError "username_1") = None.
Proof.
  intros Ok Free Good I Same.
  rewrite (register_checked _ _ _ w Ok). cbv zeta. rewrite Free.
  pose proof (registerInputOk_inv _ _ _ Ok) as [_ LOk].
  apply loginInputOk_inv in LOk. destruct LOk as (_ & VE & _).
  apply schema_accepts_valid_email in VE. destruct VE as [_ VE].
  unfold registeredUser at 1 2. cbn [User.username User.email].
  rewrite Good, VE. cbn [andb negb].
  unfold registeredUser at 1. cbn [User.username].
  assert (T : existsb
                (fun x => String.eqb (User.username x)
                            (User.setUsername
                               (Helpers.sanitizeString username)))
                (users w) = true).
  { apply existsb_exists. exists other. split; [exact I|].
    apply String.eqb_eq. exact Same. }
  rewrite T. eexists. repeat split.
Qed.

(** ** The handler of the registration *)

Lemma sanitized_twice_truthy v :
  isEmpty (Helpers.sanitizeString (JStr (Helpers.sanitizeString v))) = false ->
  truthy v = true.
Proof.
  destruct v as [| |b|n|s]; try discriminate.
  destruct s as [|c s]; [discriminate|reflexivity].
Qed.

(** X14.  A user name that another account holds leaves the request for
    a registration without a response.  When the sanitized inputs pass
    the checks of [register], the email is free and the schema accepts
    the user name, [register] throws the error of the store driver,
    [registerUser] passes its code 11000 to [res.status], and the
    runtime refuses that status with a [RangeError] inside the catch
    clause: the handler throws, and nothing is stored. *)
Theorem registerUser_taken_username_sends_no_response
  (req : AuthRequest) (w : World) (other : User.doc) :
  let username := JStr (Helpers.sanitizeString (body_username req)) in
  let email := JStr (Helpers.sanitizeString (body_email req)) in
  let password := JStr (Helpers.sanitizeString (body_password req)) in
  registerInputOk username email password = true ->
  lookupEmail w (Helpers.sanitizeString email) = None ->
  User.validUsername (User.setUsername (Helpers.sanitizeString username))
  = true ->
  In other (users w) ->
  User.username other
  = User.setUsername (Helpers.sanitizeString username) ->
  exists w' error,
    registerUser req w = (w', Throw error)
    /\ e_name error = Some "RangeError"
    /\ users w' = users w /\ goals w' = goals w.
Proof.
  intros username email password Ok Free Good I Same.
  assert (R : register username email password w =
              (advance 3 w, Throw (DuplicateKeyError "username_1"))).
  { rewrite (register_checked _ _ _ w Ok). cbv zeta. rewrite Free.
    pose proof (registerInputOk_inv _ _ _ Ok) as [_ LOk].
    apply loginInputOk_inv in LOk. destruct LOk as (_ & VE & _).
    apply schema_accepts_valid_email in VE. destruct VE as [_ VE].
    unfold registeredUser at 1 2. cbn [User.username User.email].
    rewrite Good, VE. cbn [andb negb].
    unfold registeredUser at 1. cbn [User.username].
    assert (T : existsb
                  (fun x => String.eqb (User.username x)
                              (User.setUsername
                                 (Helpers.sanitizeString username)))
                  (users w) = true).
    { apply existsb_exists. exists other. split; [exact I|].
      apply String.eqb_eq. exact Same. }
    rewrite T. reflexivity. }
  pose proof (registerInputOk_inv _ _ _ Ok) as [NU LOk].
  apply loginInputOk_inv in LOk. destruct LOk as (NE & _ & NP).
  apply orb_false_elim in NU, NE, NP.
  destruct NU as [NU _], NE as [NE _], NP as [NP _].
  unfold registerUser.
  rewrite (sanitized_twice_truthy _ NU), (sanitized_twice_truthy _ NE),
    (sanitized_twice_truthy _ NP).
  cbn [negb orb]. cbv zeta. unfold tryCatch, bind.
  fold username email password. rewrite R.
  eexists. eexists. split; [reflexivity|]. repeat split.
Qed.

(** ** The gate when [isValidObjectId] is not bound *)

Lemma invalidId_unbound id w :
  isValidObjectId = None ->
  invalidId id w =
  if isEmpty id then (w, Return true)
  else (w, Throw (notAFunction "isValidObjectId")).
Proof.
  intros B. unfold invalidId, callIsValidObjectId. rewrite B.
  destruct (isEmpty id); reflexivity.
Qed.

(** Without the binding the [try] block of the gate never gets to the
    store: it throws, or it answers 401. *)
Lemma resolveUser_unbound req token w :
  isValidObjectId = None ->
  (exists err, resolveUser req token w = (w, Throw err))
  \/ (exists message,
        resolveUser req token w = (w, Return (inl (unauthorized message)))).
Proof.
  intros B.
  destruct (jwtVerify token (JWT_SECRET env) w) as [w' [decoded|err]] eqn:V;
    pose proof (jwtVerify_world _ _ _ _ _ V); subst w'.
  - rewrite (resolveUser_decoded req token w decoded V).
    destruct (negb (truthyStr (Jwt.userId decoded)));
      [right; eexists; reflexivity|].
    cbv zeta. rewrite (invalidId_unbound _ w B).
    destruct (isEmpty _); [right|left]; eexists; reflexivity.
  - left. exists err. apply resolveUser_thrown. exact V.
Qed.

Lemma authenticate_unbound req w :
  isValidObjectId = None ->
  exists message,
    forall next,
      authenticate req next w = (w, Return (unauthorized message)).
Proof.
  intros B.
  destruct (headers_authorization req) as [h|] eqn:H;
    [|eexists; intros next; unfold authenticate; rewrite H; reflexivity].
  destruct (isEmpty h) eqn:E;
    [eexists; intros next; unfold authenticate; rewrite H, E; reflexivity|].
  destruct (negb (List.length (split " " h) =? 2)%nat
            || negb (String.eqb (nth 0 (split " " h) EmptyString) "Bearer"))
    eqn:F;
    [eexists; intros next; unfold authenticate; rewrite H, E; cbv zeta;
     rewrite F; reflexivity|].
  apply orb_false_iff in F. destruct F as [F1 F2].
  apply negb_false_iff in F1, F2.
  apply Nat.eqb_eq in F1. apply String.eqb_eq in F2.
  assert (P : presents req (nth 1 (split " " h) EmptyString)).
  { exists h. split; [exact H|].
    destruct (split " " h) as [|a [|b [|c l]]]; try discriminate.
    cbn in F2. subst a. reflexivity. }
  set (token := nth 1 (split " " h) EmptyString) in *.
  destruct (isEmpty token || isEmpty (trim token)) eqn:T;
    [eexists; intros next;
     rewrite (authenticate_presented req token next w P), T; reflexivity|].
  destruct (resolveUser_unbound req token w B) as [[err R]|[message R]];
    eexists; intros next;
    rewrite (authenticate_presented req token next w P), T, R; reflexivity.
Qed.



(** ** [sanitizeString], applied again *)

Lemma stringAll_trim p s :
  stringAll p s = true -> stringAll p (trim s) = true.
Proof.
  intros H. unfold trim.
  assert (E : forall t, stringAll p t = true ->
                        stringAll p (trimEnd t) = true).
  { induction t as [|c t IH]; cbn; [reflexivity|].
    intros Ht. apply andb_prop in Ht. destruct Ht as [Hc Ht].
    destruct (isSpace c && isEmpty (trimEnd t)); [reflexivity|].
    cbn. rewrite Hc, (IH Ht). reflexivity. }
  apply E. clear E. induction s as [|c s IH]; cbn; [reflexivity|].
  cbn in H. apply andb_prop in H. destruct H as [Hc Hs].
  destruct (isSpace c); [auto|]. cbn. rewrite Hc, Hs. reflexivity.
Qed.

(** X25.  The controllers sanitize what the services sanitize again.
    One more application of [sanitizeString] to its own result only
    trims it, which can change it: removing a tag can uncover white
    space at an end.  From the second application on nothing changes. *)
Theorem sanitizeString_settles_after_two (v : JsVal) :
  Helpers.sanitizeString (JStr (Helpers.sanitizeString v))
  = trim (Helpers.sanitizeString v)
  /\ Helpers.sanitizeString
       (JStr (Helpers.sanitizeString (JStr (Helpers.sanitizeString v))))
     = Helpers.sanitizeString (JStr (Helpers.sanitizeString v))
  /\ exists s,
       Helpers.sanitizeString (JStr (Helpers.sanitizeString (JStr s)))
       <> Helpers.sanitizeString (JStr s).
Proof.
  assert (One : forall s,
             stringAll (fun c => negb (Ascii.eqb c "<")) s = true ->
             Helpers.sanitizeString (JStr s) = trim s).
  { intros s H. cbn [Helpers.sanitizeString]. apply stripTags_plain.
    apply stringAll_trim. exact H. }
  assert (Clean : stringAll (fun c => negb (Ascii.eqb c "<"))
                    (Helpers.sanitizeString v) = true).
  { destruct v; try reflexivity. apply stripTagsFrom_clean. }
  split; [apply One; exact Clean|]. split.
  - rewrite (One _ Clean). rewrite One by (apply stringAll_trim; exact Clean).
    apply trim_idem.
  - exists "<b> x". cbv. discriminate.
Qed.

(** ** [formatDate] *)

Lemma matches_eps s : matches Eps s <-> s = EmptyString.
Proof.
  split; [intros H; inversion H; reflexivity|intros ->; constructor].
Qed.

Lemma matches_alt a b s : matches (Alt a b) s <-> matches a s \/ matches b s.
Proof.
  split.
  - intros H. inversion H; subst; [left|right]; assumption.
  - intros [H|H]; [apply MAltL|apply MAltR]; exact H.
Qed.

Lemma matches_Str t s : matches (Helpers.Str t) s <-> s = t.
Proof.
  revert s. induction t as [|c t IH]; intros s; cbn [Helpers.Str].
  - apply matches_eps.
  - rewrite matches_seq. split.
    + intros (s1 & s2 & -> & H1 & H2). apply matches_lit in H1.
      apply IH in H2. subst. reflexivity.
    + intros ->. exists (String c EmptyString), t.
      split; [reflexivity|]. split; [apply matches_lit|apply IH];
        reflexivity.
Qed.

Lemma matches_formatToken s :
  matches Helpers.formatToken s <-> isFormatToken s.
Proof.
  unfold Helpers.formatToken, isFormatToken.
  rewrite !matches_alt, !matches_Str. reflexivity.
Qed.

Lemma matches_dashToken s :
  matches (Helpers.Opt (Seq (Lit "-") Helpers.formatToken)) s <->
  s = EmptyString \/ exists t, isFormatToken t /\ s = ("-" ++ t)%string.
Proof.
  unfold Helpers.Opt. rewrite matches_alt, matches_eps, matches_seq.
  split.
  - intros [H|(s1 & s2 & -> & H1 & H2)]; [left; exact H|right].
    apply matches_lit in H1. apply matches_formatToken in H2. subst s1.
    exists s2. split; [exact H2|reflexivity].
  - intros [H|(t & T & ->)]; [left; exact H|right].
    exists "-", t. split; [reflexivity|].
    split; [apply matches_lit; reflexivity|apply matches_formatToken; exact T].
Qed.

(** The formats the pattern of [formatDate] lets through. *)
Lemma validFormat_shape f :
  test Helpers.validFormatRegex f = true <->
  exists tokens,
    tokens <> [] /\ List.length tokens <= 3
    /\ Forall isFormatToken tokens
    /\ f = String.concat "-" tokens.
Proof.
  rewrite test_matches. unfold Helpers.validFormatRegex.
  rewrite matches_seq. split.
  - intros (a & r & -> & A & R). apply matches_formatToken in A.
    apply matches_seq in R. destruct R as (x & y & -> & X & Y).
    apply matches_dashToken in X, Y.
    destruct X as [->|(b & B & ->)], Y as [->|(c & C & ->)];
      [exists [a]|exists [a; c]|exists [a; b]|exists [a; b; c]];
      (split; [discriminate|]); (split; [cbn; lia|]);
      (split; [repeat (apply Forall_cons; [assumption|]); apply Forall_nil|]);
      cbn; rewrite ?append_empty_r; reflexivity.
  - intros (tokens & N & L & F & ->).
    destruct tokens as [|a [|b [|c [|d l]]]];
      [contradiction| | | |cbn in L; lia].
    + inversion F; subst. exists a, EmptyString.
      split; [cbn; rewrite append_empty_r; reflexivity|].
      split; [apply matches_formatToken; assumption|].
      apply matches_seq. exists EmptyString, EmptyString.
      split; [reflexivity|].
      split; apply matches_dashToken; left; reflexivity.
    + inversion F as [|? ? Fa F']; subst. inversion F'; subst.
      exists a, ("-" ++ b)%string. split; [reflexivity|].
      split; [apply matches_formatToken; assumption|].
      apply matches_seq. exists ("-" ++ b)%string, EmptyString.
      split; [cbn; rewrite append_empty_r; reflexivity|].
      split; apply matches_dashToken;
        [right; exists b; split; [assumption|reflexivity]|left; reflexivity].
    + inversion F as [|? ? Fa F']; subst.
      inversion F' as [|? ? Fb F'']; subst. inversion F''; subst.
      exists a, ("-" ++ b ++ "-" ++ c)%string. split; [reflexivity|].
      split; [apply matches_formatToken; assumption|].
      apply matches_seq. exists ("-" ++ b)%string, ("-" ++ c)%string.
      split; [reflexivity|].
      split; apply matches_dashToken; right;
        [exists b|exists c]; split; try assumption; reflexivity.
Qed.

(** X26.  [formatDate] gives [''] unless the date is a valid instant and
    the format is one, two or three of the tokens [YYYY], [MM] and [DD]
    joined by ['-']: whatever else it returns is what [format] of
    [date-fns] returned for that instant and that format.  With such a
    date and such a format it returns what [format] returns, and ['']
    when [format] throws. *)
Theorem formatDate_spec (date : DateArg) (formatStr : JsVal) :
  (formatDate date formatStr <> EmptyString ->
   exists instant tokens,
     dateObjOf date = Some instant
     /\ tokens <> [] /\ List.length tokens <= 3
     /\ Forall isFormatToken tokens
     /\ formatStrOf formatStr = Some (String.concat "-" tokens)
     /\ dateFns_format instant (String.concat "-" tokens)
        = inl (formatDate date formatStr))
  /\ (forall instant tokens,
        dateObjOf date = Some instant ->
        tokens <> [] -> List.length tokens <= 3 ->
        Forall isFormatToken tokens ->
        formatStrOf formatStr = Some (String.concat "-" tokens) ->
        formatDate date formatStr =
        match dateFns_format instant (String.concat "-" tokens) with
        | inl s => s
        | inr _ => EmptyString
        end).
Proof.
  assert (E : formatDate date formatStr =
              match dateObjOf date, formatStrOf formatStr with
              | Some instant, Some f =>
                  if test Helpers.validFormatRegex f
                  then match dateFns_format instant f with
                       | inl s => s
                       | inr _ => EmptyString
                       end
                  else EmptyString
              | _, _ => EmptyString
              end).
  { unfold formatDate.
    destruct date as [time|v].
    - destruct (dateObjOf (DateObject time)); [|reflexivity].
      destruct (formatStrOf formatStr); [|reflexivity].
      destruct (test Helpers.validFormatRegex s); reflexivity.
    - destruct v; try reflexivity.
      destruct (dateObjOf (DateValue (JStr s))); [|reflexivity].
      destruct (formatStrOf formatStr) as [f|]; [|reflexivity].
      destruct (test Helpers.validFormatRegex f); reflexivity. }
  split.
  - rewrite E. intros N.
    destruct (dateObjOf date) as [instant|]; [|contradiction].
    destruct (formatStrOf formatStr) as [f|]; [|contradiction].
    destruct (test Helpers.validFormatRegex f) eqn:T; [|contradiction].
    apply validFormat_shape in T. destruct T as (tokens & N0 & L & F & ->).
    exists instant, tokens. repeat split; try assumption.
    destruct (dateFns_format instant _); [reflexivity|contradiction].
  - intros instant tokens D N L F S. rewrite E, D, S.
    assert (T : test Helpers.validFormatRegex (String.concat "-" tokens)
                = true).
    { apply validFormat_shape. exists tokens. repeat split; assumption. }
    rewrite T. reflexivity.
Qed.

End Program.

(* ===================================================================== *)
(** * The program with [helpers.js] as it is *)
(* ===================================================================== *)

(** C2.  With the binding [src/utils/helpers.js] gives for
    [isValidObjectId], which is none, every goal operation called with a
    goal id that is not empty throws a [TypeError] from its id check,
    which stands before its [try]: the value has a message but no code
    and no status text, so it is not of the shape
    [{ message, code, statusText }], and it is not re-wrapped as a 500.
    The goal handlers throw the same value before they answer.  In the
    gate the same call stands inside the [try]: there the value is
    caught, and sent as a 401 with the message of the [TypeError]. *)
Theorem goal_operations_throw_raw_TypeError
  (Date_parse : string -> option Z) (w : World) (goalId userId : string)
  (title description targetDate progress : JsVal) (req : Request)
  (reqUser : ReqUser) :
  goalId <> EmptyString ->
  params_goalId req = Some goalId -> user req = Some reqUser ->
  let thrown := notAFunction "isValidObjectId" in
  getGoal Helpers.isValidObjectId goalId userId w = (w, Throw thrown)
  /\ updateGoal Date_parse Helpers.isValidObjectId goalId userId title
       description targetDate progress w = (w, Throw thrown)
  /\ deleteGoal Helpers.isValidObjectId goalId userId w = (w, Throw thrown)
  /\ getGoalHandler Helpers.isValidObjectId req w = (w, Throw thrown)
  /\ deleteGoalHandler Helpers.isValidObjectId req w = (w, Throw thrown)
  /\ isStructured thrown = false
  /\ e_code thrown = None
  /\ e_statusText thrown = None.
Proof.
  intros N P U thrown. apply isEmpty_false in N.
  unfold getGoal, updateGoal, deleteGoal, getGoalHandler, deleteGoalHandler,
    invalidId, callIsValidObjectId, reqUserId, paramGoalId,
    Helpers.isValidObjectId.
  rewrite P, U, N. repeat split.
Qed.

(** C5.  With the binding of [helpers.js], a call of [getGoal],
    [updateGoal] or [deleteGoal] for a stored goal of another user does
    not get to the lookup that is filtered by goal id and owner: its id
    check throws the [TypeError].  So the call is not answered with the
    404 'Goal not found', and the value thrown has no code at all, while
    no goal is returned and the world, the goal in it, is as it was. *)
Theorem foreign_goal_is_answered_with_the_TypeError
  (Date_parse : string -> option Z) (w : World) (g : Goal.doc)
  (userId : string) (title description targetDate progress : JsVal) :
  In g (goals w) -> Goal.userId g <> userId ->
  Goal._id g <> EmptyString ->
  let thrown := notAFunction "isValidObjectId" in
  getGoal Helpers.isValidObjectId (Goal._id g) userId w = (w, Throw thrown)
  /\ updateGoal Date_parse Helpers.isValidObjectId (Goal._id g) userId title
       description targetDate progress w = (w, Throw thrown)
  /\ deleteGoal Helpers.isValidObjectId (Goal._id g) userId w
     = (w, Throw thrown)
  /\ thrown <> goalNotFound
  /\ e_code goalNotFound = Some 404%Z
  /\ e_code thrown = None.
Proof.
  intros _ _ N thrown. apply isEmpty_false in N.
  unfold getGoal, updateGoal, deleteGoal, invalidId, callIsValidObjectId,
    Helpers.isValidObjectId.
  rewrite N. repeat split. discriminate.
Qed.

(** C9.  With the binding of [helpers.js], [updateGoal] with a progress
    of 0 on a stored goal of the caller does not return: its id check
    throws the [TypeError] before a field is read, so the assignments,
    the one that skips a progress of 0 among them, are not reached.  The
    world is as it was. *)
Theorem updateGoal_zero_progress_does_not_return
  (Date_parse : string -> option Z) (w : World) (g : Goal.doc)
  (title description targetDate : JsVal) :
  In g (goals w) -> Goal._id g <> EmptyString ->
  updateGoal Date_parse Helpers.isValidObjectId (Goal._id g) (Goal.userId g)
    title description targetDate (JNum 0) w
  = (w, Throw (notAFunction "isValidObjectId"))
  /\ forall w' g',
       updateGoal Date_parse Helpers.isValidObjectId (Goal._id g)
         (Goal.userId g) title description targetDate (JNum 0) w
       <> (w', Return g').
Proof.
  intros _ N. apply isEmpty_false in N.
  assert (E : updateGoal Date_parse Helpers.isValidObjectId (Goal._id g)
                (Goal.userId g) title description targetDate (JNum 0) w
              = (w, Throw (notAFunction "isValidObjectId"))).
  { unfold updateGoal, invalidId, callIsValidObjectId,
      Helpers.isValidObjectId.
    rewrite N. reflexivity. }
  split; [exact E|]. intros w' g'. rewrite E. discriminate.
Qed.

(** X20.  With the binding of [helpers.js] the gate lets no request
    through: whatever the request and the world, it answers 401, with a
    message that does not depend on the handler, and the handler does not
    run.  So no route behind the gate is ever served. *)
Theorem gate_refuses_every_request `{jwt : Jwt.Lib}
  (env : Env) (req : Request) (w : World) :
  exists message,
    forall next,
      authenticate env Helpers.isValidObjectId req next w
      = (w, Return {| status := 401;
                      json := ErrorBody message 401 "Unauthorized" |}).
Proof. apply authenticate_unbound. reflexivity. Qed.



(* ===================================================================== *)
(** * Registration on a store that casts its filters *)
(* ===================================================================== *)

(** The store library, from its version 5 on, casts the filter of a
    query through the setters of the schema: [runSettersOnQuery] is
    [true]. *)



(* ===================================================================== *)
(** * The reference libraries meet their contracts *)
(* ===================================================================== *)

Module ReferenceFacts.

Import JsString Reference.

Lemma compare_of_hash p q s : compare p (hash q s) = String.eqb p q.
Proof. reflexivity. Qed.

Lemma hash_is_long p s : (8 <= String.length (hash p s))%nat.
Proof. simpl. lia. Qed.

Lemma hash_differs p s : hash p s <> p.
Proof.
  intros E. apply (f_equal String.length) in E. simpl in E. lia.
Qed.

#[export] Instance bcrypt : Bcrypt.Lib := {|
  Bcrypt.Salt := ascii;
  Bcrypt.genSaltFrom := fun _ n => ascii_of_nat (97 + n mod 26);
  Bcrypt.hash := hash;
  Bcrypt.compare := compare;
  Bcrypt.compare_hash := compare_of_hash;
  Bcrypt.hash_not_plain := hash_differs;
  Bcrypt.hash_length := hash_is_long
|}.

Lemma decStr_encStr s r : decStr (encStr s r) = Some (s, r).
Proof.
  induction s as [|c s IH]; [reflexivity|].
  destruct c as [b0 b1 b2 b3 b4 b5 b6 b7].
  cbn [encStr encChar decStr].
  replace (Ascii.eqb (bitChar b0) ".") with false by (destruct b0; reflexivity).
  rewrite IH.
  destruct b0, b1, b2, b3, b4, b5, b6, b7; reflexivity.
Qed.

Lemma decOpt_encOpt o r : decOpt (encOpt o r) = Some (o, r).
Proof.
  destruct o as [s|]; [|reflexivity].
  cbn [encOpt decOpt]. cbn [Ascii.eqb Bool.eqb]. rewrite decStr_encStr. reflexivity.
Qed.

Lemma decPos_encPos p r : decPos (encPos p r) = Some (p, r).
Proof.
  induction p as [q IH|q IH|]; cbn [encPos decPos]; cbn [Ascii.eqb Bool.eqb];
    [rewrite IH | rewrite IH |]; reflexivity.
Qed.

Lemma decZ_encZ z r : decZ (encZ z r) = Some (z, r).
Proof.
  destruct z; cbn [encZ decZ]; cbn [Ascii.eqb Bool.eqb];
    [| rewrite decPos_encPos | rewrite decPos_encPos]; reflexivity.
Qed.

Lemma verify_of_sign c k iat ttl t :
  k <> EmptyString ->
  verify (sign c k iat ttl) k t =
  if (iat + ttl <=? t)%Z then inr Jwt.TokenExpiredError else inl c.
Proof.
  intros _. unfold verify, sign.
  rewrite !decOpt_encOpt, decZ_encZ, decStr_encStr, String.eqb_refl.
  destruct c; reflexivity.
Qed.

Lemma noSpace_encStr s r : noSpace r = true -> noSpace (encStr s r) = true.
Proof.
  intros Hr. induction s as [|c s IH]; [exact Hr|].
  destruct c as [b0 b1 b2 b3 b4 b5 b6 b7]. cbn [encStr encChar].
  unfold noSpace in *. cbn [stringAll]. rewrite IH.
  destruct b0, b1, b2, b3, b4, b5, b6, b7; reflexivity.
Qed.

Lemma noSpace_encOpt o r : noSpace r = true -> noSpace (encOpt o r) = true.
Proof.
  intros Hr. destruct o as [s|]; cbn [encOpt]; unfold noSpace; cbn [stringAll].
  - fold (noSpace (encStr s r)). rewrite noSpace_encStr by exact Hr. reflexivity.
  - fold (noSpace r). rewrite Hr. reflexivity.
Qed.

Lemma noSpace_encPos p r : noSpace r = true -> noSpace (encPos p r) = true.
Proof.
  intros Hr. unfold noSpace in *.
  induction p as [q IH|q IH|]; cbn [encPos stringAll];
    [rewrite IH | rewrite IH | rewrite Hr]; reflexivity.
Qed.

Lemma noSpace_encZ z r : noSpace r = true -> noSpace (encZ z r) = true.
Proof.
  intros Hr. destruct z; cbn [encZ]; unfold noSpace; cbn [stringAll].
  - fold (noSpace r). rewrite Hr. reflexivity.
  - fold (noSpace (encPos p r)). rewrite noSpace_encPos by exact Hr. reflexivity.
  - fold (noSpace (encPos p r)). rewrite noSpace_encPos by exact Hr. reflexivity.
Qed.

Lemma sign_is_oneWord c k iat ttl : Jwt.oneWord (sign c k iat ttl) = true.
Proof.
  unfold Jwt.oneWord. apply andb_true_intro. split.
  - unfold sign. destruct (Jwt.userId c); reflexivity.
  - apply noSpace_encOpt, noSpace_encOpt, noSpace_encZ, noSpace_encStr.
    reflexivity.
Qed.

#[export] Instance jwt : Jwt.Lib := {|
  Jwt.sign := sign;
  Jwt.verify := verify;
  Jwt.verify_sign := verify_of_sign;
  Jwt.sign_oneWord := sign_is_oneWord
|}.

Lemma randomBytes_has_size size e : List.length (randomBytes size e) = size.
Proof. unfold randomBytes. rewrite length_map, length_seq. reflexivity. Qed.

#[export] Instance crypto : Crypto.Lib := {|
  Crypto.randomBytes := randomBytes;
  Crypto.randomBytes_length := randomBytes_has_size
|}.

End ReferenceFacts.

(* ===================================================================== *)
(** * The properties on the scenario *)
(* ===================================================================== *)

Import Reference ReferenceFacts Scenario.

(** The registration of the scenario succeeds and gives [registered]. *)
Example register_alice :
  register true newObjectId (JStr "alice01") (JStr "a@b.com")
    (JStr "longpass1") start
  = (registered, Return (publicUser alice)).
Proof. reflexivity. Qed.

(** C1 on the scenario: [alice01] cannot log in with the password she
    registered with. *)
Lemma register_then_login_rejected_witness :
  login env true (JStr "a@b.com") (JStr "longpass1") registered
  = (registered, Throw invalidCredentials).
Proof.
  apply (@register_then_login_rejected ReferenceFacts.bcrypt ReferenceFacts.jwt env true newObjectId start registered (JStr "alice01")
           (JStr "a@b.com") (JStr "longpass1") (publicUser alice)).
  reflexivity.
Defined.

(** [bob02], whose record holds a password hashed once, does log in,
    and his token verifies to his id. *)
Example bob_logs_in :
  exists token,
    login env true (JStr "bob@b.com") (JStr "bobspass1") later
    = (later, Return {| lr_message := "Login successful"; lr_token := token;
                        lr_user := publicUser bob |})
    /\ Jwt.verify token "s3cret" (now later / 1000)%Z
       = inl {| Jwt.userId := Some (User._id bob);
                Jwt.email := Some "bob@b.com" |}.
Proof. eexists. split; reflexivity. Qed.

(** C3 on the scenario: an unknown email and a wrong password for
    [a@b.com] are answered alike. *)
Lemma login_failures_indistinguishable_witness :
  login env true (JStr "nobody@b.com") (JStr "longpass1") registered
  = (registered, Throw invalidCredentials)
  /\ login env true (JStr "a@b.com") (JStr "wrongpass1") registered
     = (registered, Throw invalidCredentials).
Proof.
  destruct (@login_failures_indistinguishable ReferenceFacts.bcrypt ReferenceFacts.jwt
              env true registered (JStr "nobody@b.com") (JStr "longpass1")
              (JStr "a@b.com") (JStr "wrongpass1") alice
              "$2b$10$c$2b$10$alongpass1")
    as (A & B & _); try reflexivity.
  split; [exact A | exact B].
Defined.

(** C6 on the scenario: [a@b.com] is taken, whoever asks for it. *)
Lemma register_duplicate_email_conflict_witness :
  register true newObjectId (JStr "bob02") (JStr " a@b.com ")
    (JStr "bobspass1") registered
  = (registered, Throw conflict).
Proof.
  destruct (@register_duplicate_email_conflict ReferenceFacts.bcrypt true
              newObjectId registered (JStr "bob02") (JStr " a@b.com ")
              (JStr "bobspass1") alice) as (A & _).
  - reflexivity.
  - left. reflexivity.
  - reflexivity.
  - reflexivity.
  - exact A.
Defined.

(** C7 on the scenario: a registration with a mixed-case, padded email
    returns the five properties and the email in lower case. *)
Lemma register_returns_public_view_witness :
  let view :=
    [ ("username", JStr "alice01"); ("email", JStr "alice@example.com");
      ("id", JStr "64b5f0c2a1d3e4f5a6b7c801");
      ("createdAt", JNum 1700000000000);
      ("updatedAt", JNum 1700000000000) ] in
  keys view = ["username"; "email"; "id"; "createdAt"; "updatedAt"]
  /\ field "password" view = None
  /\ field "email" view = Some (JStr "alice@example.com").
Proof.
  intros view.
  destruct (@register_returns_public_view ReferenceFacts.bcrypt true newObjectId
              start
              (fst (register true newObjectId (JStr "alice01")
                      (JStr "  Alice@Example.COM ") (JStr "longpass1") start))
              (JStr "alice01") (JStr "  Alice@Example.COM ")
              (JStr "longpass1") view)
    as (K & P & _ & (e & E & _)).
  - reflexivity.
  - split; [exact K|]. split; [exact P|]. reflexivity.
Defined.

(** C2 on the scenario: with the binding of [helpers.js], reading a goal
    throws the [TypeError], in the service and in the handler. *)
Lemma goal_operations_throw_raw_TypeError_witness :
  getGoal Helpers.isValidObjectId (Goal._id aliceGoal) (User._id alice) later
  = (later, Throw (notAFunction "isValidObjectId"))
  /\ getGoalHandler Helpers.isValidObjectId
       (setUser (reqUserOf alice) (bearer aliceToken)) later
     = (later, Throw (notAFunction "isValidObjectId"))
  /\ isStructured (notAFunction "isValidObjectId") = false.
Proof.
  destruct (@goal_operations_throw_raw_TypeError Date_parse later
              (Goal._id aliceGoal) (User._id alice) JUndefined JUndefined
              JUndefined (JNum 0)
              (setUser (reqUserOf alice) (bearer aliceToken))
              (reqUserOf alice))
    as (A & _ & _ & B & _ & C & _).
  - discriminate.
  - reflexivity.
  - reflexivity.
  - split; [exact A|]. split; [exact B | exact C].
Defined.

(** With that binding the gate lets no request through: the request of
    [alice], with a token that verifies, is answered 401 with the
    message of the [TypeError]. *)
Example gate_with_helpers_binding :
  authenticate env Helpers.isValidObjectId (bearer aliceToken) handler later
  = (later, Return (unauthorized "isValidObjectId is not a function")).
Proof. reflexivity. Qed.

Lemma presents_bearer token :
  Jwt.oneWord token = true -> presents (bearer token) token.
Proof. intros W. apply presents_Bearer; [reflexivity | exact W]. Qed.

(** C8 on the scenario: a token signed for no time at all is rejected as
    expired at the very second it was signed, and later. *)
Lemma expired_token_is_rejected_witness :
  authenticate env Helpers.isValidObjectId (bearer spentToken) handler
    registered
  = (registered,
     Return (unauthorized "Authentication failed: Token Expired"))
  /\ authenticate env Helpers.isValidObjectId (bearer spentToken) handler
       later
     = (later, Return (unauthorized "Authentication failed: Token Expired")).
Proof.
  split.
  - apply (@expired_token_is_rejected ReferenceFacts.jwt env
             Helpers.isValidObjectId (bearer spentToken) registered handler spentToken).
    + apply presents_bearer. reflexivity.
    + discriminate.
    + discriminate.
    + right. exists aliceClaims, registered. split; [reflexivity|].
      cbn. lia.
  - apply (@expired_token_is_rejected ReferenceFacts.jwt env
             Helpers.isValidObjectId (bearer spentToken) later handler spentToken).
    + apply presents_bearer. reflexivity.
    + discriminate.
    + discriminate.
    + left. exists Jwt.TokenExpiredError. split; reflexivity.
Defined.



(** C5 on the scenario: [alice01] asks for, updates and deletes the goal
    of [bob02]. *)
Lemma foreign_goal_is_answered_with_the_TypeError_witness :
  getGoal Helpers.isValidObjectId (Goal._id bobGoal) (User._id alice) later
  = (later, Throw (notAFunction "isValidObjectId"))
  /\ updateGoal Date_parse Helpers.isValidObjectId (Goal._id bobGoal)
       (User._id alice) (JStr "Mine") JUndefined JUndefined (JNum 50) later
     = (later, Throw (notAFunction "isValidObjectId"))
  /\ deleteGoal Helpers.isValidObjectId (Goal._id bobGoal) (User._id alice)
       later
     = (later, Throw (notAFunction "isValidObjectId"))
  /\ notAFunction "isValidObjectId" <> goalNotFound.
Proof.
  destruct (foreign_goal_is_answered_with_the_TypeError Date_parse later
              bobGoal (User._id alice) (JStr "Mine") JUndefined JUndefined
              (JNum 50))
    as (A & B & C & D & _).
  - left. reflexivity.
  - discriminate.
  - discriminate.
  - split; [exact A|]. split; [exact B|]. split; [exact C|exact D].
Defined.

(** C9 on the scenario: [alice01] sets the progress of her goal to 0. *)
Lemma updateGoal_zero_progress_does_not_return_witness :
  updateGoal Date_parse Helpers.isValidObjectId (Goal._id aliceGoal)
    (User._id alice) JUndefined JUndefined JUndefined (JNum 0) later
  = (later, Throw (notAFunction "isValidObjectId")).
Proof.
  destruct (updateGoal_zero_progress_does_not_return Date_parse later
              aliceGoal JUndefined JUndefined JUndefined) as [E _].
  - right. left. reflexivity.
  - discriminate.
  - exact E.
Defined.



(* ===================================================================== *)
(** * The further properties on the scenario *)
(* ===================================================================== *)

(** X1 on [a@b.com]. *)
Lemma isValidEmail_shape_witness :
  Helpers.isValidEmail (JStr "a@b.com") = true.
Proof.
  apply (proj2 (proj1 (isValidEmail_shape "a@b.com"))).
  exists "a", "b", "com". split; [reflexivity|].
  repeat split; try discriminate; reflexivity.
Defined.

(** X2 on the example of the source. *)
Lemma sanitizeString_leaves_no_tag_opener_witness :
  Helpers.sanitizeString (JStr "  <p>Test String</p>  ") = "Test String"
  /\ String.length
       (Helpers.sanitizeString (JStr "  <p>Test String</p>  ")) <= 22.
Proof.
  destruct (sanitizeString_leaves_no_tag_opener
              (JStr "  <p>Test String</p>  ")) as (_ & B & _).
  split; [reflexivity|]. exact (proj1 (B _ eq_refl)).
Defined.

(** X3 on the example of the source: 10 characters and the dots. *)
Lemma truncateString_spec_witness :
  exists p,
    Helpers.truncateString (JStr "This is a long string") (JNum 10)
    = (p ++ "...")%string
    /\ String.length p = 10
    /\ String.length
         (Helpers.truncateString (JStr "This is a long string") (JNum 10))
       = 13.
Proof.
  destruct (truncateString_spec "This is a long string" 10) as [_ H];
    [lia|].
  destruct H as (p & E & _ & L & T); [cbn; lia|].
  exists p. split; [exact E|]. split; [exact L|exact T].
Defined.

(** X4 on [alice01]. *)
Lemma validUsername_shape_witness : User.validUsername "alice01" = true.
Proof.
  apply (proj2 (validUsername_shape "alice01")).
  split; [cbn; lia|reflexivity].
Defined.

(** X5 on [A@b.com]. *)
Lemma email_validators_agree_witness :
  User.validEmail (User.setEmail "A@b.com") = true.
Proof. apply (proj2 (email_validators_agree "A@b.com")). reflexivity. Defined.

(** X6: five characters asked for, five returned. *)
Lemma generateRandomString_length_witness :
  exists s,
    generateRandomString (JNum 5) start = (advance 1 start, Return s)
    /\ String.length s = 5.
Proof.
  destruct (proj1 (@generateRandomString_length ReferenceFacts.crypto 5
                     start)) as (s & E & L & _); [lia|].
  exists s. split; [exact E|exact L].
Defined.

(** The result of the login of [bob02] in [later]. *)
Definition bobLogin : LoginResult :=
  {| lr_message := "Login successful";
     lr_token := sign {| Jwt.userId := Some (User._id bob);
                         Jwt.email := Some "bob@b.com" |}
                   "s3cret" 1700000500 86400;
     lr_user := publicUser bob |}.

Lemma bob_login :
  login env true (JStr "bob@b.com") (JStr "bobspass1") later
  = (later, Return bobLogin).
Proof. reflexivity. Qed.

(** X7 on the login of [bob02]. *)
Lemma login_sound_witness :
  exists u,
    In u (users later) /\ User.email u = "bob@b.com"
    /\ lr_user bobLogin = publicUser u.
Proof.
  destruct (@login_sound ReferenceFacts.bcrypt ReferenceFacts.jwt env true
              (JStr "bob@b.com") (JStr "bobspass1") later later bobLogin
              bob_login) as (_ & _ & u & h & I & E & _ & _ & _ & V & _).
  exists u. split; [exact I|]. split; [exact E|exact V].
Defined.

(** X10: the token of [bob02] an hour later, and two days later. *)
Lemma login_token_verifies_until_expiry_witness :
  exists u,
    In u (users later)
    /\ verifyToken env (lr_token bobLogin)
         {| users := []; goals := []; now := 1700004100000; entropy := 0 |}
       = ({| users := []; goals := []; now := 1700004100000; entropy := 0 |},
          Return {| Jwt.userId := Some (User._id u);
                    Jwt.email := Some (User.email u) |})
    /\ verifyToken env (lr_token bobLogin)
         {| users := []; goals := []; now := 1700173300000; entropy := 0 |}
       = ({| users := []; goals := []; now := 1700173300000; entropy := 0 |},
          Throw (apiError "jwt expired" 401 "Unauthorized")).
Proof.
  destruct (@login_token_verifies_until_expiry ReferenceFacts.bcrypt
              ReferenceFacts.jwt env true (JStr "bob@b.com")
              (JStr "bobspass1") later later
              {| users := []; goals := []; now := 1700004100000;
                 entropy := 0 |} bobLogin bob_login)
    as (u & I & _ & A & _).
  destruct (@login_token_verifies_until_expiry ReferenceFacts.bcrypt
              ReferenceFacts.jwt env true (JStr "bob@b.com")
              (JStr "bobspass1") later later
              {| users := []; goals := []; now := 1700173300000;
                 entropy := 0 |} bobLogin bob_login)
    as (u' & _ & V & _ & B).
  exists u. split; [exact I|]. split.
  - apply A. reflexivity.
  - apply B. discriminate.
Defined.

(** X11 on the registration of the scenario. *)
Lemma register_keeps_users_well_formed_witness :
  usersOk (users registered) /\ goals registered = goals start.
Proof.
  destruct (@register_keeps_users_well_formed ReferenceFacts.bcrypt true
              newObjectId (JStr "alice01") (JStr "a@b.com")
              (JStr "longpass1") start registered
              (Return (publicUser alice)))
    as (A & _ & B & _).
  - repeat split; constructor.
  - reflexivity.
  - split; [exact A|exact B].
Defined.

(** X12: a user name of two characters. *)
Lemma register_invalid_username_is_500_witness :
  exists w' msg,
    register true newObjectId (JStr "al") (JStr "a@b.com")
      (JStr "longpass1") start
    = (w', Throw (apiError msg 500 "Internal Server Error"))
    /\ users w' = [].
Proof.
  destruct (@register_invalid_username_is_500 ReferenceFacts.bcrypt true
              newObjectId (JStr "al") (JStr "a@b.com") (JStr "longpass1")
              start) as (w' & msg & E & U & _); try reflexivity.
  exists w', msg. split; [exact E|exact U].
Defined.

(** X13: [alice01] is taken; another email does not help. *)
Lemma register_taken_username_throws_driver_error_witness :
  exists w',
    register true newObjectId (JStr "alice01") (JStr "other@b.com")
      (JStr "longpass1") registered
    = (w', Throw (DuplicateKeyError "username_1"))
    /\ users w' = [alice].
Proof.
  destruct (@register_taken_username_throws_driver_error
              ReferenceFacts.bcrypt true newObjectId (JStr "alice01")
              (JStr "other@b.com") (JStr "longpass1") registered alice)
    as (w' & E & U & _); try reflexivity.
  - left. reflexivity.
  - exists w'. split; [exact E|exact U].
Defined.

(** X26, for a [format] that gives the format back: the default format
    is let through, and a format with a time in it is not. *)
Lemma formatDate_spec_witness :
  formatDate Date_parse (fun _ f => inl f) (DateValue (JStr "2030-01-01"))
    JUndefined
  = "YYYY-MM-DD".
Proof.
  destruct (formatDate_spec Date_parse (fun _ f => inl f)
              (DateValue (JStr "2030-01-01")) JUndefined) as [_ H].
  rewrite (H 1893456000000%Z ["YYYY"; "MM"; "DD"]).
  - reflexivity.
  - reflexivity.
  - discriminate.
  - cbn. lia.
  - repeat (apply Forall_cons; [cbv; auto|]). apply Forall_nil.
  - reflexivity.
Defined.

(** X9 on the token of [alice] and on no token. *)
Lemma verifyToken_answers_witness :
  verifyToken env EmptyString later
  = (later, Throw (apiError "JWT token is missing" 400 "Bad Request"))
  /\ verifyToken env aliceToken later = (later, Return aliceClaims).
Proof.
  split.
  - destruct (@verifyToken_answers ReferenceFacts.jwt env EmptyString later)
      as [[_ H]|[(msg & N & _)|(decoded & N & _)]];
      [exact H|destruct (N eq_refl)|destruct (N eq_refl)].
  - destruct (@verifyToken_answers ReferenceFacts.jwt env aliceToken later)
      as [[E _]|[(msg & _ & H)|(decoded & _ & V & H)]].
    + discriminate E.
    + discriminate H.
    + rewrite H. inversion V. reflexivity.
Defined.

(** X25 on a string that starts with a tag. *)
Lemma sanitizeString_settles_after_two_witness :
  Helpers.sanitizeString (JStr "<b> x") = " x"
  /\ Helpers.sanitizeString (JStr (Helpers.sanitizeString (JStr "<b> x")))
     = "x".
Proof.
  split; [reflexivity|].
  rewrite (proj1 (sanitizeString_settles_after_two (JStr "<b> x"))).
  reflexivity.
Defined.

(** X14 on the scenario: a registration with the username of [alice01]
    and a new email. *)
Lemma registerUser_taken_username_sends_no_response_witness :
  exists w' error,
    registerUser true newObjectId
      {| body_username := JStr "alice01";
         body_email := JStr "other@b.com";
         body_password := JStr "longpass1" |} registered
    = (w', Throw error)
    /\ e_name error = Some "RangeError"
    /\ users w' = [alice].
Proof.
  destruct (@registerUser_taken_username_sends_no_response
              ReferenceFacts.bcrypt true newObjectId
              {| body_username := JStr "alice01";
                 body_email := JStr "other@b.com";
                 body_password := JStr "longpass1" |} registered alice)
    as (w' & error & E & N & U & _); try reflexivity.
  - left. reflexivity.
  - exists w', error. split; [exact E|]. split; [exact N|exact U].
Defined.


